(** * bcache-tools / libbcache: btree node cache, iterator positions and
  the request router, embedded from the C sources.

  The first half of the file holds the embedding, one module per source
  file; the second half holds the lemmas and theorems proved about it.

  - [Ints]       fixed-width integer arithmetic as the C code has it;
  - [BtreeIter]  [struct bpos] and [btree_type_successor] (btree_iter.h);
  - [Reserve]    [bch_recalc_btree_reserve] (btree_cache.c);
  - [Request]    congestion, the bypass decision and the two
                 make_request functions (request.c);
  - [NodeCache]  the btree node cache: hash table, lists, shrinker,
                 allocation and [bch_btree_node_get] (btree_cache.c).

  Integers are [Z] with the wrap-around written out.  Functions, macros
  and types that the sources use but do not define are parameters of the
  section that needs them. *)

From Stdlib Require Import ZArith Lia Bool List.
From stdpp Require Import base option list gmap.

Open Scope Z_scope.

(* ===================================================================== *)
(** ** Fixed-width integers *)
(* ===================================================================== *)

Module Ints.

(** Value of [x] after conversion to an unsigned type of [w] bits. *)
Definition uwrap (w : Z) (x : Z) : Z := x mod 2 ^ w.

(** Value of [x] after conversion to a two's-complement signed type of
    [w] bits. *)
Definition swrap (w : Z) (x : Z) : Z :=
  (x + 2 ^ (w - 1)) mod 2 ^ w - 2 ^ (w - 1).

Definition u8  := uwrap 8.
Definition u32 := uwrap 32.
Definition u64 := uwrap 64.
Definition s32 := swrap 32.

Definition in_u32 (x : Z) : Prop := 0 <= x < 2 ^ 32.
Definition in_s32 (x : Z) : Prop := - 2 ^ 31 <= x < 2 ^ 31.

End Ints.

Import Ints.

(* ===================================================================== *)
(** ** btree_iter.h: positions and their successors *)
(* ===================================================================== *)

Module BtreeIter.

(** [enum btree_id].  The sources name [BTREE_ID_EXTENTS] and
    [BTREE_ID_INODES]; the remaining identifiers come from
    [DEFINE_BCH_BTREE_IDS()] and are kept by their number. *)
Inductive btree_id :=
| BTREE_ID_EXTENTS
| BTREE_ID_INODES
| BTREE_ID_other (n : nat).

#[global] Instance btree_id_eq_dec : EqDecision btree_id.
Proof. solve_decision. Defined.

(** [struct bpos]: the two u64 fields the sources read and write, and
    the snapshot word that travels with them. *)
Record bpos := POS3 { inode : Z; offset : Z; snapshot : Z }.

(** [POS(inode, offset)] *)
Definition POS (i o : Z) : bpos := POS3 i o 0.

(** [struct bkey], as far as [KEY(inode, offset, size)] fills it: the
    position is the END of the range the key covers. *)
Record bkey := KEY3 { p : bpos; size : Z }.

Definition KEY (i o s : Z) : bkey := KEY3 (POS i o) s.

(** Start of the range a key covers: its position moved back by its
    size (the u64 subtraction of [bkey_start_offset]). *)
Definition bkey_start_pos (k : bkey) : bpos :=
  POS3 (inode (p k)) (u64 (offset (p k) - size k)) (snapshot (p k)).


Section Successor.

(** [bkey_successor] lives in bkey.h, which is not among the sources:
    it is a parameter. *)
Variable bkey_successor : bpos -> bpos.


End Successor.


End BtreeIter.

(* ===================================================================== *)
(** ** btree_cache.c: the reserve *)
(* ===================================================================== *)

Module Reserve.

(** One slot of [c->btree_roots[]]: [None] when [.b] is NULL, otherwise
    the root's [level] (a u8). *)
Definition root_slot := option Z.

(** [min_t(unsigned, 1, level) * 8] *)
Definition root_share (level : Z) : Z := u32 (Z.min 1 (u32 level) * 8).

(** One turn of the loop at btree_cache.c:28. *)
Definition reserve_step (reserve : Z) (r : root_slot) : Z :=
  match r with
  | Some level => u32 (reserve + root_share level)
  | None => reserve
  end.

(** btree_cache.c:21.  [roots] is the array [c->btree_roots], of length
    [BTREE_ID_NR]; the value stored in [c->btree_cache_reserve] is
    returned. *)
Definition bch_recalc_btree_reserve (roots : list root_slot) : Z :=
  let reserve := 16 in
  let reserve :=
    match roots !! 0%nat with
    | Some (Some _) => reserve
    | _ => u32 (reserve + 8)          (* !c->btree_roots[0].b *)
    end in
  fold_left reserve_step roots reserve.

(** The specification's formula: 16 + Σ_root min(1, level) × 8. *)
Fixpoint spec_root_sum (roots : list root_slot) : Z :=
  match roots with
  | [] => 0
  | Some level :: rs => Z.min 1 level * 8 + spec_root_sum rs
  | None :: rs => spec_root_sum rs
  end.

Definition spec_reserve (roots : list root_slot) : Z :=
  16 + spec_root_sum roots.

(** Roots whose levels are values of the u8 field. *)
Definition levels_ok (roots : list root_slot) : Prop :=
  Forall (fun r => match r with Some l => 0 <= l < 256 | None => True end) roots.

End Reserve.

(* ===================================================================== *)
(** ** request.c: congestion, bypass decision, make_request *)
(* ===================================================================== *)

Module Request.

(** request.c:48 *)
Definition CUTOFF_CACHE_ADD : Z := 10.

(** errno values the request path stores. *)
Definition ENOSPC : Z := 28.

(** *** Block layer vocabulary *)

(** [bio_op(bio)] *)
Inductive req_op :=
| REQ_OP_READ
| REQ_OP_WRITE
| REQ_OP_DISCARD
| REQ_OP_other (n : nat).

#[global] Instance req_op_eq_dec : EqDecision req_op.
Proof. solve_decision. Defined.

(** [op_is_write]: every operation but a read moves data to the device. *)
Definition op_is_write (op : req_op) : bool :=
  if decide (op = REQ_OP_READ) then false else true.

(** The bits of [bi_opf] the request path tests. *)
Record req_flags := {
  REQ_SYNC : bool;
  REQ_PREFLUSH : bool;
  REQ_FUA : bool;
}.

(** Where a bio is aimed ([bi_bdev]). *)
Inductive bdev :=
| Bdev_bcache              (* the bcache device, as the submitter sent it *)
| Bdev_backing.            (* dc->disk_sb.bdev *)

Record bio := {
  bi_bdev : bdev;
  bi_sector : Z;           (* bi_iter.bi_sector, sector_t *)
  bi_size : Z;             (* bi_iter.bi_size, unsigned, in bytes *)
  bi_op : req_op;
  bi_opf : req_flags;
}.

Definition bio_sectors (b : bio) : Z := Z.shiftr (bi_size b) 9.
Definition bio_end_sector (b : bio) : Z := u64 (bi_sector b + bio_sectors b).

(** [bio_data_dir]: [true] is WRITE. *)
Definition bio_data_dir (b : bio) : bool := op_is_write (bi_op b).

Definition set_bi_size (b : bio) (n : Z) : bio :=
  {| bi_bdev := bi_bdev b; bi_sector := bi_sector b; bi_size := n;
     bi_op := bi_op b; bi_opf := bi_opf b |}.

(** [bio_advance(bio, bytes)] on a bio whose pages are not modelled. *)
Definition bio_advance (b : bio) (bytes : Z) : bio :=
  {| bi_bdev := bi_bdev b;
     bi_sector := u64 (bi_sector b + Z.shiftr bytes 9);
     bi_size := u32 (bi_size b - bytes);
     bi_op := bi_op b; bi_opf := bi_opf b |}.

(** *** Congestion (request.c:53) *)

(** The fields of [struct cache_set] the request path reads. *)
Record cache_set := {
  congested_read_threshold_us : Z;
  congested_write_threshold_us : Z;
  congested : Z;                   (* atomic_t *)
  congested_last_us : Z;
  sectors_available : Z;           (* value of sectors_available(c) *)
  capacity : Z;
  block_size : Z;                  (* c->sb.block_size *)
}.

(** [bitmap_weight(&x, nbits)]: the number of set bits among the low
    [nbits] bits of the two's-complement word [x]. *)
Fixpoint bitmap_weight (nbits : nat) (x : Z) : Z :=
  match nbits with
  | O => 0
  | S n => Z.b2z (Z.testbit x (Z.of_nat n)) + bitmap_weight n x
  end.

Section Congested.

(** bcache.h and util.h are not among the sources: [CONGESTED_MAX] and
    [fract_exp_two] are parameters, as are the width of a [long] and the
    width of the microsecond clock [local_clock_us()] is subtracted in. *)
Variable CONGESTED_MAX : Z.
Variable fract_exp_two : Z -> Z -> Z.
Variable BITS_PER_LONG : nat.
Variable clock_bits : Z.

Definition congestion_disabled (c : cache_set) : bool :=
  (congested_read_threshold_us c =? 0) && (congested_write_threshold_us c =? 0).

(** [(local_clock_us() - c->congested_last_us) / 1024], stored in an
    [int]. *)
Definition congested_elapsed (c : cache_set) (now_us : Z) : Z :=
  s32 (uwrap clock_bits (now_us - congested_last_us c) / 1024).

(** request.c:53.  [now_us] is the value of [local_clock_us()], [rand]
    the value of [get_random_int()] (an [int], widened to [long]). *)
Definition bch_get_congested (c : cache_set) (now_us rand : Z) : Z :=
  if congestion_disabled c then 0 else
  let i := congested_elapsed c now_us in
  if i <? 0 then 0 else
  let i := s32 (i + congested c) in
  if i >=? 0 then 0 else
  let i := s32 (i + CONGESTED_MAX) in
  let i := if i >? 0 then s32 (fract_exp_two i 6) else i in
  let i := s32 (i - bitmap_weight BITS_PER_LONG rand) in
  if i >? 0 then i else 1.

(** The specification's formula,
    max(0, CONGESTED_MAX − elapsed + counter), less the dither. *)
Definition spec_get_congested (c : cache_set) (now_us rand : Z) : Z :=
  if congestion_disabled c then 0 else
  Z.max 0 (CONGESTED_MAX - congested_elapsed c now_us + congested c)
  - bitmap_weight BITS_PER_LONG rand.

End Congested.

(** *** The sequential detector and the bypass decision (request.c:93) *)

Inductive cache_mode :=
| CACHE_MODE_WRITETHROUGH
| CACHE_MODE_WRITEBACK
| CACHE_MODE_WRITEAROUND
| CACHE_MODE_NONE.

#[global] Instance cache_mode_eq_dec : EqDecision cache_mode.
Proof. solve_decision. Defined.

(** [struct io]: one entry of the ring of recent I/Os. *)
Record io := {
  io_last : Z;             (* i->last: sector after the last I/O *)
  io_last_io : Z;          (* i->last_io: jiffies until which it counts *)
  io_sequential : Z;       (* i->sequential: bytes of the run *)
}.

(** The two fields of [current] the detector uses. *)
Record task_struct := {
  sequential_io : Z;
  sequential_io_avg : Z;
}.

(** [struct cached_dev].  Entries of [dc->io[]] are named by their index;
    [io_hash] maps a bucket to its chain, head first; [io_lru] is the LRU
    list, head first. *)
Record cached_dev := {
  count : Z;                       (* atomic_t count *)
  detaching : bool;                (* BCACHE_DEV_DETACHING *)
  mode : cache_mode;               (* BDEV_CACHE_MODE(dc->disk_sb.sb) *)
  data_offset : Z;                 (* dc->disk_sb.sb->data_offset *)
  sequential_cutoff : Z;
  bypass_torture_test : bool;
  verify : bool;
  ios : list io;
  io_hash : gmap Z (list nat);
  io_lru : list nat;
  sectors_bypassed : Z;            (* what bch_mark_sectors_bypassed adds up *)
}.

Definition set_io (dc : cached_dev) (ios' : list io)
    (hash' : gmap Z (list nat)) (lru' : list nat) : cached_dev :=
  {| count := count dc; detaching := detaching dc; mode := mode dc;
     data_offset := data_offset dc;
     sequential_cutoff := sequential_cutoff dc;
     bypass_torture_test := bypass_torture_test dc; verify := verify dc;
     ios := ios'; io_hash := hash'; io_lru := lru';
     sectors_bypassed := sectors_bypassed dc |}.

Definition set_count (dc : cached_dev) (n : Z) : cached_dev :=
  {| count := n; detaching := detaching dc; mode := mode dc;
     data_offset := data_offset dc;
     sequential_cutoff := sequential_cutoff dc;
     bypass_torture_test := bypass_torture_test dc; verify := verify dc;
     ios := ios dc; io_hash := io_hash dc; io_lru := io_lru dc;
     sectors_bypassed := sectors_bypassed dc |}.

(** [bch_mark_sectors_bypassed(c, dc, sectors)] *)
Definition bch_mark_sectors_bypassed (dc : cached_dev) (sectors : Z) : cached_dev :=
  {| count := count dc; detaching := detaching dc; mode := mode dc;
     data_offset := data_offset dc;
     sequential_cutoff := sequential_cutoff dc;
     bypass_torture_test := bypass_torture_test dc; verify := verify dc;
     ios := ios dc; io_hash := io_hash dc; io_lru := io_lru dc;
     sectors_bypassed := sectors_bypassed dc + sectors |}.

(** [hlist_del(&i->hash)]: the entry leaves the chain it is on. *)
Definition hlist_del (i : nat) (h : gmap Z (list nat)) : gmap Z (list nat) :=
  (fun chain => List.filter (fun j => negb (Nat.eqb j i)) chain) <$> h.

(** [hlist_add_head(&i->hash, bucket)] *)
Definition hlist_add_head (i : nat) (bucket : Z) (h : gmap Z (list nat))
    : gmap Z (list nat) :=
  <[bucket := i :: default [] (h !! bucket)]> h.

(** [list_move_tail(&i->lru, &dc->io_lru)] *)
Definition list_move_tail (i : nat) (l : list nat) : list nat :=
  List.filter (fun j => negb (Nat.eqb j i)) l ++ [i].

Section Bypass.

(** Declared outside the sources: [hash_64(k, RECENT_IO_BITS)],
    [time_before], [msecs_to_jiffies], [ewma_add], the width of a [long]
    (jiffies) and the width of [i->sequential]. *)
Variable iohash_bucket : Z -> Z.
Variable time_before : Z -> Z -> bool.
Variable msecs_to_jiffies : Z -> Z.
Variable ewma_add : Z -> Z -> Z -> Z.
Variable long_bits : Z.
Variable seq_bits : Z.

(** request.c:81 *)
Definition add_sequential (t : task_struct) : task_struct :=
  {| sequential_io := 0;
     sequential_io_avg := ewma_add (sequential_io_avg t) (sequential_io t) 3 |}.

(** request.c:88 *)
Definition iohash (dc : cached_dev) (k : Z) : list nat :=
  default [] (io_hash dc !! iohash_bucket k).

(** The test of request.c:136. *)
Definition io_hit (jiffies : Z) (b : bio) (e : io) : bool :=
  (io_last e =? bi_sector b) && time_before jiffies (io_last_io e).

(** [hlist_for_each_entry] of request.c:135: the first entry of the chain
    that passes the test. *)
Fixpoint find_recent_io (jiffies : Z) (b : bio) (entries : list io)
    (chain : list nat) : option nat :=
  match chain with
  | [] => None
  | i :: rest =>
      match entries !! i with
      | Some e => if io_hit jiffies b e then Some i
                  else find_recent_io jiffies b entries rest
      | None => find_recent_io jiffies b entries rest
      end
  end.

(** request.c:145: the guarded addition to [i->sequential]. *)
Definition merge_sequential (seq size : Z) : Z :=
  if uwrap seq_bits (seq + size) >? seq
  then uwrap seq_bits (seq + size)
  else seq.

(** request.c:133-156, under [dc->io_lock]: look the bio up, pick the
    entry to use, account the bio to it and requeue it.  The result names
    the entry used and says whether it was a hit; [None] when there is no
    entry to take from the LRU list. *)
Definition sequential_detect (dc : cached_dev) (b : bio) (task : task_struct)
    (jiffies : Z) : option (nat * bool * cached_dev * task_struct) :=
  let found := find_recent_io jiffies b (ios dc) (iohash dc (bi_sector b)) in
  let pick :=
    match found with
    | Some i =>
        match ios dc !! i with
        | Some e => Some (i, true, task, io_sequential e)
        | None => None
        end
    | None =>
        match io_lru dc with
        | i :: _ => Some (i, false, add_sequential task, 0)
        | [] => None
        end
    end in
  match pick with
  | None => None
  | Some (i, hit, task1, seq0) =>
      let e' := {| io_last := bio_end_sector b;
                   io_last_io := uwrap long_bits (jiffies + msecs_to_jiffies 5000);
                   io_sequential := merge_sequential seq0 (bi_size b) |} in
      let task2 := {| sequential_io := u32 (io_sequential e');
                      sequential_io_avg := sequential_io_avg task1 |} in
      let hash' := hlist_add_head i (iohash_bucket (io_last e'))
                     (hlist_del i (io_hash dc)) in
      Some (i, hit,
            set_io dc (<[i := e']> (ios dc)) hash' (list_move_tail i (io_lru dc)),
            task2)
  end.

(** [max(task->sequential_io, task->sequential_io_avg) >> 9] *)
Definition task_sectors (t : task_struct) : Z :=
  Z.shiftr (Z.max (sequential_io t) (sequential_io_avg t)) 9.

Definition unaligned (c : cache_set) (b : bio) : bool :=
  negb (Z.land (bi_sector b) (block_size c - 1) =? 0)
  || negb (Z.land (bio_sectors b) (block_size c - 1) =? 0).

(** The tests of request.c:101-131 that settle the request before the
    detector is consulted: [Some true] is [goto skip], [Some false] is
    [goto rescale], [None] falls through to the detector. *)
Definition bypass_early (c : cache_set) (dc : cached_dev) (b : bio)
    (cong rand : Z) : option bool :=
  if detaching dc
     || (u64 (sectors_available c * 100) <? u64 (capacity c * CUTOFF_CACHE_ADD))
     || bool_decide (bi_op b = REQ_OP_DISCARD)
  then Some true
  else if bool_decide (mode dc = CACHE_MODE_NONE)
          || (bool_decide (mode dc = CACHE_MODE_WRITEAROUND)
              && op_is_write (bi_op b))
  then Some true
  else if unaligned c b then Some true
  else if bypass_torture_test dc then
    (if Z.land rand 3 =? 3 then Some true else Some false)
  else if (cong =? 0) && (sequential_cutoff dc =? 0) then Some false
  else if (cong =? 0)
          && bool_decide (mode dc = CACHE_MODE_WRITEBACK)
          && op_is_write (bi_op b)
          && REQ_SYNC (bi_opf b)
  then Some false
  else None.

(** The two tests of request.c:161-170 on the detector's figure. *)
Definition bypass_late (dc : cached_dev) (cong sectors : Z) : bool :=
  (negb (sequential_cutoff dc =? 0)
   && (sectors >=? Z.shiftr (sequential_cutoff dc) 9))
  || (negb (cong =? 0) && (sectors >=? cong)).

(** The specification's sentence on the detector: the request bypasses
    the cache exactly when the run reaches [sequential_cutoff]. *)
Definition spec_sequential_bypass (run cutoff : Z) : bool := cutoff <=? run.

(** request.c:93.  [cong] is the value [bch_get_congested(c)] returned,
    [rand] the value of [get_random_int()] in the torture test. *)
Definition check_should_bypass (c : cache_set) (dc : cached_dev) (b : bio)
    (task : task_struct) (cong rand jiffies : Z)
    : option (bool * cached_dev * task_struct) :=
  let finish (skip : bool) dc' task' :=
    if skip
    then Some (true, bch_mark_sectors_bypassed dc' (bio_sectors b), task')
    else Some (false, dc', task') in
  match bypass_early c dc b cong rand with
  | Some skip => finish skip dc task
  | None =>
      match sequential_detect dc b task jiffies with
      | None => None
      | Some (_, _, dc', task') =>
          finish (bypass_late dc' cong (task_sectors task')) dc' task'
      end
  end.

End Bypass.

(** *** The search object and its closure (request.c:179-263) *)

(** The flags [cached_dev_write] and [__blockdev_volume_make_request]
    hand to [bch_write_op_init]. *)
Record write_flags := {
  BCH_WRITE_DISCARD_ON_ERROR : bool;
  BCH_WRITE_CACHED : bool;
  BCH_WRITE_ALLOC_NOWAIT : bool;
  BCH_WRITE_FLUSH : bool;
  BCH_WRITE_DISCARD : bool;
}.

(** What the request path asks of its collaborators, in program order.
    The bio layer, the journal, the write pipeline and the read path are
    outside the sources; a call into them is recorded, not run. *)
Inductive event :=
| Ev_start_io_acct (rw : bool) (sectors : Z)       (* generic_start_io_acct *)
| Ev_end_io_acct (rw : bool)                       (* generic_end_io_acct *)
| Ev_bio_endio (b : bio) (error : Z)               (* bio_endio, with bi_error *)
| Ev_submit (b : bio)                              (* generic_make_request *)
| Ev_journal_flush_async                           (* bch_journal_flush_async *)
| Ev_disk_reservation_get (sectors ret : Z)        (* bch_disk_reservation_get *)
| Ev_bch_write (f : write_flags) (pos : BtreeIter.bpos) (b : bio)
                                                   (* closure_call(.., bch_write, ..) *)
| Ev_bch_read (inum : Z) (b : bio)                 (* bch_read *)
| Ev_cached_dev_read (b : bio)                     (* extents lookup and cache reads *)
| Ev_writeback_lock                                (* down_read_non_owner *)
| Ev_writeback_unlock                              (* up_read_non_owner *)
| Ev_writeback_add                                 (* bch_writeback_add *)
| Ev_schedule_detach                               (* schedule_work(&dc->detach) *)
| Ev_search_freed.                                 (* mempool_free(s, ..) *)

(** Requests sent to the cache set itself: the extents tree, the write
    pipeline (which inserts into the tree), reads from cache devices, and
    the journal, which lives on the cache devices. *)
Definition cache_traffic (e : event) : bool :=
  match e with
  | Ev_journal_flush_async | Ev_bch_write _ _ _ | Ev_bch_read _ _
  | Ev_cached_dev_read _ => true
  | _ => false
  end.

(** A lookup in the extents tree or a read from a cache device. *)
Definition cache_lookup (e : event) : bool :=
  match e with
  | Ev_bch_read _ _ | Ev_cached_dev_read _ => true
  | _ => false
  end.

(** A write operation, the only way keys are inserted into the tree. *)
Definition cache_insert (e : event) : bool :=
  match e with
  | Ev_bch_write _ _ _ => true
  | _ => false
  end.

(** A bio handed to the backing device. *)
Definition backing_submit (e : event) : bool :=
  match e with
  | Ev_submit b => match bi_bdev b with Bdev_backing => true | _ => false end
  | _ => false
  end.

(** The functions a closure is continued at. *)
Inductive continuation :=
| K_search_free
| K_cached_dev_bio_complete
| K_cached_dev_write_complete
| K_cached_dev_read_done_bh.

(** [struct search] (blockdev.h).  [s_bio] is the clone in the union of
    [rbio] and [wbio]; [cl_remaining] counts the references on [s->cl]
    other than the one the running function holds, [cl_fn] is the
    function [continue_at] left to run when they are gone. *)
Record search := {
  s_bio : bio;
  orig_bio : option bio;
  s_inode : Z;
  s_write : bool;
  recoverable : bool;
  read_dirty_data : bool;
  cache_miss : bool;
  bypass : bool;
  iop_error : Z;
  cl_remaining : nat;
  cl_fn : option continuation;
}.

Definition set_orig_bio (s : search) (o : option bio) : search :=
  {| s_bio := s_bio s; orig_bio := o; s_inode := s_inode s;
     s_write := s_write s; recoverable := recoverable s;
     read_dirty_data := read_dirty_data s; cache_miss := cache_miss s;
     bypass := bypass s; iop_error := iop_error s;
     cl_remaining := cl_remaining s; cl_fn := cl_fn s |}.

Definition set_bypass (s : search) (v : bool) : search :=
  {| s_bio := s_bio s; orig_bio := orig_bio s; s_inode := s_inode s;
     s_write := s_write s; recoverable := recoverable s;
     read_dirty_data := read_dirty_data s; cache_miss := cache_miss s;
     bypass := v; iop_error := iop_error s;
     cl_remaining := cl_remaining s; cl_fn := cl_fn s |}.

Definition set_iop_error (s : search) (v : Z) : search :=
  {| s_bio := s_bio s; orig_bio := orig_bio s; s_inode := s_inode s;
     s_write := s_write s; recoverable := recoverable s;
     read_dirty_data := read_dirty_data s; cache_miss := cache_miss s;
     bypass := bypass s; iop_error := v;
     cl_remaining := cl_remaining s; cl_fn := cl_fn s |}.

Definition set_closure (s : search) (n : nat) (k : option continuation) : search :=
  {| s_bio := s_bio s; orig_bio := orig_bio s; s_inode := s_inode s;
     s_write := s_write s; recoverable := recoverable s;
     read_dirty_data := read_dirty_data s; cache_miss := cache_miss s;
     bypass := bypass s; iop_error := iop_error s;
     cl_remaining := n; cl_fn := k |}.

(** [closure_get(&s->cl)] *)
Definition closure_get (s : search) : search :=
  set_closure s (S (cl_remaining s)) (cl_fn s).

(** request.c:238.  [inum] is [bcache_dev_inum(d)]. *)
Definition search_alloc (b : bio) (inum : Z) : search :=
  {| s_bio := b;                         (* do_bio_hook: __bio_clone_fast *)
     orig_bio := Some b;
     s_inode := inum;
     s_write := op_is_write (bi_op b);
     recoverable := true;
     read_dirty_data := false;
     cache_miss := false;
     bypass := false;
     iop_error := 0;
     cl_remaining := 0;                  (* closure_init(&s->cl, NULL) *)
     cl_fn := None |}.

(** request.c:199 *)
Definition bio_complete (s : search) : search * list event :=
  match orig_bio s with
  | Some o =>
      (set_orig_bio s None,
       [Ev_end_io_acct (bio_data_dir o); Ev_bio_endio o (iop_error s)])
  | None => (s, [])
  end.

(** request.c:225 *)
Definition search_free (s : search) : search * list event :=
  let '(s1, t) := bio_complete s in
  (s1, t ++ [Ev_search_freed]).

(** blockdev.h:113 *)
Definition cached_dev_put (dc : cached_dev) : cached_dev * list event :=
  let n := s32 (count dc - 1) in
  (set_count dc n, if n =? 0 then [Ev_schedule_detach] else []).

(** blockdev.h:119 *)
Definition cached_dev_get (dc : cached_dev) : bool * cached_dev :=
  if count dc =? 0 then (false, dc)
  else (true, set_count dc (s32 (count dc + 1))).

(** request.c:267 *)
Definition cached_dev_bio_complete (dc : cached_dev) (s : search)
    : cached_dev * search * list event :=
  let '(s1, t1) := search_free s in
  let '(dc1, t2) := cached_dev_put dc in
  (dc1, s1, t1 ++ t2).

(** request.c:539 *)
Definition cached_dev_write_complete (dc : cached_dev) (s : search)
    : cached_dev * search * list event :=
  let '(dc1, s1, t) := cached_dev_bio_complete dc s in
  (dc1, s1, Ev_writeback_unlock :: t).

(** [closure_bio_submit(bio, cl)]: a reference for the bio in flight,
    dropped by its end_io. *)
Definition closure_bio_submit (b : bio) (s : search) : search * list event :=
  (closure_get s, [Ev_submit b]).

Section MakeRequest.

Variable CONGESTED_MAX : Z.
Variable fract_exp_two : Z -> Z -> Z.
Variable BITS_PER_LONG : nat.
Variable clock_bits : Z.
Variable iohash_bucket : Z -> Z.
Variable time_before : Z -> Z -> bool.
Variable msecs_to_jiffies : Z -> Z.
Variable ewma_add : Z -> Z -> Z -> Z.
Variable long_bits : Z.
Variable seq_bits : Z.

(** [should_writeback] (writeback.h) is outside the sources: it is a
    parameter. *)
Variable should_writeback : cached_dev -> bio -> cache_mode -> bool -> bool.

(** What the rest of the kernel answers during one request. *)
Record req_env := {
  env_jiffies : Z;                 (* jiffies *)
  env_now_us : Z;                  (* local_clock_us() *)
  env_rand : Z;                    (* get_random_int() in bch_get_congested *)
  env_rand_torture : Z;            (* get_random_int() in the torture test *)
  env_inum : Z;                    (* bcache_dev_inum(d) *)
  env_overlapping : bool;          (* bch_keybuf_check_overlapping(..) *)
  env_queue_discard : bool;        (* blk_queue_discard(backing queue) *)
  env_journal_refs : nat;          (* references bch_journal_flush_async takes *)
  env_reservation : Z;             (* bch_disk_reservation_get(..) *)
}.

(** [continue_at(&s->cl, fn, NULL)] for a function [run]: it runs at once
    when nothing else holds the closure, and is left in [cl_fn] for the
    last [closure_put] otherwise. *)
Definition continue_at {A} (k : continuation)
    (run : search -> A * search * list event) (idle : A) (s : search)
    : A * search * list event :=
  match cl_remaining s with
  | O => run (set_closure s O None)
  | S _ => (idle, set_closure s (cl_remaining s) (Some k), [])
  end.

(** request.c:548 *)
Definition cached_dev_write (env : req_env) (dc : cached_dev) (s : search)
    : cached_dev * search * list event :=
  let b := s_bio s in
  let insert_key :=
    BtreeIter.KEY (s_inode s) (bio_end_sector b) (bio_sectors b) in
  let writeback := false in
  let byp := bypass s in
  let '(byp, writeback) :=
    if env_overlapping env then (false, true) else (byp, writeback) in
  let byp := if decide (bi_op b = REQ_OP_DISCARD) then true else byp in
  let '(byp, writeback) :=
    if should_writeback dc b (mode dc) byp then (false, true)
    else (byp, writeback) in
  let '(s1, t1, cached, nowait) :=
    if byp then
      if negb (bool_decide (bi_op b = REQ_OP_DISCARD)) || env_queue_discard env
      then
        match orig_bio s with
        | Some o => let '(s', t) := closure_bio_submit o s in (s', t, false, false)
        | None => (s, [], false, false)
        end
      else (s, [], false, false)
    else if writeback then
      if REQ_PREFLUSH (bi_opf b) then
        let flush :=
          {| bi_bdev := bi_bdev b; bi_sector := 0; bi_size := 0;
             bi_op := REQ_OP_WRITE;
             bi_opf := {| REQ_SYNC := true; REQ_PREFLUSH := true;
                          REQ_FUA := false |} |} in
        let '(s', t) := closure_bio_submit flush s in
        (s', Ev_writeback_add :: t, false, false)
      else (s, [Ev_writeback_add], false, false)
    else
      let '(s', t) := closure_bio_submit b s in      (* the writethrough clone *)
      (s', t, true, true) in
  let flags :=
    {| BCH_WRITE_DISCARD_ON_ERROR := true;
       BCH_WRITE_CACHED := cached;
       BCH_WRITE_ALLOC_NOWAIT := nowait;
       BCH_WRITE_FLUSH := REQ_PREFLUSH (bi_opf b) || REQ_FUA (bi_opf b);
       BCH_WRITE_DISCARD := byp |} in
  (* closure_call(&s->iop.cl, bch_write, NULL, cl): the write holds cl *)
  let s2 := closure_get s1 in
  let t2 := [Ev_bch_write flags (BtreeIter.bkey_start_pos insert_key) b] in
  let '(dc3, s3, t3) :=
    continue_at K_cached_dev_write_complete
      (fun s' => let '(dc', s'', t) := cached_dev_write_complete dc s' in
                 (dc', s'', t)) dc s2 in
  (dc3, s3, Ev_writeback_lock :: t1 ++ t2 ++ t3).

(** request.c:461.  The walk over the extents tree runs through the
    btree iterator, [bch_extent_pick_ptr] and [bch_read_extent], none of
    them among the sources: the read is recorded as one call and its
    completion ([cached_dev_read_done_bh]) is left to the closure. *)
Definition cached_dev_read (dc : cached_dev) (s : search)
    : cached_dev * search * list event :=
  (dc, set_closure s (cl_remaining s) (Some K_cached_dev_read_done_bh),
   [Ev_cached_dev_read (s_bio s)]).

(** request.c:643.  The result is the device, the task, the search
    object when one was allocated, and the calls made. *)
Definition __cached_dev_make_request (env : req_env) (c : cache_set)
    (dc : cached_dev) (task : task_struct) (b : bio)
    : option (cached_dev * task_struct * option search * list event) :=
  let rw := bio_data_dir b in
  let t0 := [Ev_start_io_acct rw (bio_sectors b)] in
  let b :=
    {| bi_bdev := Bdev_backing;
       bi_sector := u64 (bi_sector b + data_offset dc);
       bi_size := bi_size b; bi_op := bi_op b; bi_opf := bi_opf b |} in
  let '(got, dc1) := cached_dev_get dc in
  if got then
    let s := search_alloc b (env_inum env) in
    let clone := s_bio s in
    if bi_size b =? 0 then
      let '(s1, t1) :=
        if REQ_PREFLUSH (bi_opf b) || REQ_FUA (bi_opf b)
        then (set_closure s (cl_remaining s + env_journal_refs env)%nat (cl_fn s),
              [Ev_journal_flush_async])
        else (s, []) in
      let '(s2, t2) := closure_bio_submit clone s1 in
      let '(dc3, s3, t3) :=
        continue_at K_cached_dev_bio_complete
          (fun s' => cached_dev_bio_complete dc1 s') dc1 s2 in
      Some (dc3, task, Some s3, t0 ++ t1 ++ t2 ++ t3)
    else
      let cong :=
        bch_get_congested CONGESTED_MAX fract_exp_two BITS_PER_LONG clock_bits
          c (env_now_us env) (env_rand env) in
      match check_should_bypass iohash_bucket time_before msecs_to_jiffies
              ewma_add long_bits seq_bits c dc1 b task cong
              (env_rand_torture env) (env_jiffies env) with
      | None => None
      | Some (byp, dc2, task2) =>
          let s1 := set_bypass s byp in
          let '(dc3, s3, t3) :=
            if rw then cached_dev_write env dc2 s1
            else cached_dev_read dc2 s1 in
          Some (dc3, task2, Some s3, t0 ++ t3)
      end
  else
    if bool_decide (bi_op b = REQ_OP_DISCARD) && negb (env_queue_discard env)
    then Some (dc1, task, None, t0 ++ [Ev_bio_endio b 0])
    else Some (dc1, task, None, t0 ++ [Ev_submit b]).

(** request.c:742 *)
Definition __blockdev_volume_make_request (env : req_env) (b : bio)
    : search * list event :=
  let rw := bio_data_dir b in
  let t0 := [Ev_start_io_acct rw (bio_sectors b)] in
  let s := search_alloc b (env_inum env) in
  let free := continue_at K_search_free
                (fun s' => let '(s'', t) := search_free s' in (tt, s'', t)) tt in
  if bi_size b =? 0 then
    let '(s1, t1) :=
      if REQ_PREFLUSH (bi_opf b) || REQ_FUA (bi_opf b)
      then (set_closure s (cl_remaining s + env_journal_refs env)%nat (cl_fn s),
            [Ev_journal_flush_async])
      else (s, []) in
    let '(_, s2, t2) := free s1 in
    (s2, t0 ++ t1 ++ t2)
  else if rw then
    let reserve := negb (bool_decide (bi_op b = REQ_OP_DISCARD)) in
    if reserve && negb (env_reservation env =? 0) then
      let s1 := set_iop_error s (- ENOSPC) in
      let '(_, s2, t2) := free s1 in
      (s2, t0 ++ [Ev_disk_reservation_get (bio_sectors b) (env_reservation env)]
              ++ t2)
    else
      let t1 := if reserve
                then [Ev_disk_reservation_get (bio_sectors b) (env_reservation env)]
                else [] in
      let flags :=
        {| BCH_WRITE_DISCARD_ON_ERROR := false;
           BCH_WRITE_CACHED := false;
           BCH_WRITE_ALLOC_NOWAIT := false;
           BCH_WRITE_FLUSH := REQ_PREFLUSH (bi_opf b) || REQ_FUA (bi_opf b);
           BCH_WRITE_DISCARD := bool_decide (bi_op b = REQ_OP_DISCARD) |} in
      let s1 := closure_get s in
      let t2 := [Ev_bch_write flags (BtreeIter.POS (s_inode s) (bi_sector b)) b] in
      let '(_, s2, t3) := free s1 in
      (s2, t0 ++ t1 ++ t2 ++ t3)
  else
    let s1 := closure_get s in
    let t1 := [Ev_bch_read (env_inum env) b] in
    let '(_, s2, t2) := free s1 in
    (s2, t0 ++ t1 ++ t2).

End MakeRequest.

(** *** Examples *)

(** Linear interpolation between powers of two, one function that may
    stand for [fract_exp_two] in an example. *)
Definition example_fract_exp_two (x fract_bits : Z) : Z :=
  let fract := Z.land x (Z.ones fract_bits) in
  let x := Z.shiftl 1 (Z.shiftr x fract_bits) in
  u32 (x + Z.shiftr (x * fract) fract_bits).

(** A cache set with congestion tracking on, 100 units into congestion,
    last congested at time 0. *)
Definition example_congested : cache_set :=
  {| congested_read_threshold_us := 2000;
     congested_write_threshold_us := 20000;
     congested := -100;
     congested_last_us := 0;
     sectors_available := 1000000;
     capacity := 1000000;
     block_size := 8 |}.

(** The same with the counter at rest. *)
Definition example_uncongested : cache_set :=
  {| congested_read_threshold_us := 2000;
     congested_write_threshold_us := 20000;
     congested := 0;
     congested_last_us := 0;
     sectors_available := 1000000;
     capacity := 1000000;
     block_size := 8 |}.

Definition example_io : io :=
  {| io_last := 1000; io_last_io := 100; io_sequential := 4096 |}.

(** A cached device in writethrough mode with a 4 MiB cutoff and one
    recent I/O, which ended at sector 1000. *)
Definition example_dc : cached_dev :=
  {| count := 1; detaching := false; mode := CACHE_MODE_WRITETHROUGH;
     data_offset := 16;
     sequential_cutoff := 4194304; bypass_torture_test := false;
     verify := false;
     ios := [example_io];
     io_hash := {[ 1000 := [0%nat] ]};
     io_lru := [0%nat];
     sectors_bypassed := 0 |}.

Definition example_cache_set : cache_set :=
  {| congested_read_threshold_us := 0;
     congested_write_threshold_us := 0;
     congested := 0;
     congested_last_us := 0;
     sectors_available := 1000000;
     capacity := 1000000;
     block_size := 8 |}.

(** A 4 KiB read that continues the recent I/O. *)
Definition example_bio : bio :=
  {| bi_bdev := Bdev_backing; bi_sector := 1000; bi_size := 4096;
     bi_op := REQ_OP_READ;
     bi_opf := {| REQ_SYNC := false; REQ_PREFLUSH := false; REQ_FUA := false |} |}.

(** A task whose average sequential run is 8 MiB. *)
Definition example_task : task_struct :=
  {| sequential_io := 0; sequential_io_avg := 8388608 |}.

(** A task with no sequential history. *)
Definition example_fresh_task : task_struct :=
  {| sequential_io := 0; sequential_io_avg := 0 |}.

Definition example_ewma (avg val weight : Z) : Z :=
  (avg * (weight - 1) + val) / weight.

(** The device and the task after the detector has seen the bio. *)
Definition example_dc_after : cached_dev :=
  match sequential_detect (fun k => k) Z.ltb (fun ms => ms) example_ewma 64 32
          example_dc example_bio example_fresh_task 50 with
  | Some (_, _, dc', _) => dc'
  | None => example_dc
  end.

Definition example_task_after : task_struct :=
  match sequential_detect (fun k => k) Z.ltb (fun ms => ms) example_ewma 64 32
          example_dc example_bio example_fresh_task 50 with
  | Some (_, _, _, task') => task'
  | None => example_fresh_task
  end.

Definition example_flags : req_flags :=
  {| REQ_SYNC := false; REQ_PREFLUSH := false; REQ_FUA := false |}.

Definition example_flush_flags : req_flags :=
  {| REQ_SYNC := true; REQ_PREFLUSH := true; REQ_FUA := false |}.

(** A 4 KiB write at sector 8. *)
Definition example_write : bio :=
  {| bi_bdev := Bdev_bcache; bi_sector := 8; bi_size := 4096;
     bi_op := REQ_OP_WRITE; bi_opf := example_flags |}.

(** An empty flush. *)
Definition example_flush : bio :=
  {| bi_bdev := Bdev_bcache; bi_sector := 0; bi_size := 0;
     bi_op := REQ_OP_WRITE; bi_opf := example_flush_flags |}.

(** Surroundings in which no space can be reserved. *)
Definition example_env : req_env :=
  {| env_jiffies := 50; env_now_us := 0; env_rand := 0; env_rand_torture := 0;
     env_inum := 7; env_overlapping := false; env_queue_discard := true;
     env_journal_refs := 1; env_reservation := - ENOSPC |}.

(** The bio as [__cached_dev_make_request] redirects it to the backing
    device. *)
Definition to_backing (dc : cached_dev) (b : bio) : bio :=
  {| bi_bdev := Bdev_backing;
     bi_sector := u64 (bi_sector b + data_offset dc);
     bi_size := bi_size b; bi_op := bi_op b; bi_opf := bi_opf b |}.

End Request.

(* ===================================================================== *)
(** ** btree_cache.c: the btree node cache *)
(* ===================================================================== *)

Module NodeCache.

Definition EINTR : Z := 4.
Definition EIO : Z := 5.
Definition ENOMEM : Z := 12.
Definition EEXIST : Z := 17.

(** [SHRINK_STOP] is [~0UL]; [return -1] from a function returning
    [unsigned long] is the same word. *)
Definition SHRINK_STOP : Z := 2 ^ 64 - 1.

(** *** The three-mode lock *)

Inductive six_lock_type := SIX_LOCK_read | SIX_LOCK_intent | SIX_LOCK_write.

#[global] Instance six_lock_type_eq_dec : EqDecision six_lock_type.
Proof. solve_decision. Defined.

(** Modelled from the spec: six.h is not among the sources.  §4.2 gives
    the lock three modes, read (many holders), intent (one holder, shared
    with readers) and write (exclusive, taken by the intent holder); the
    comment at btree_iter.h:97 adds that the sequence number "is
    incremented by taking and releasing write locks and is even when
    unlocked". *)
Record six_lock := {
  read_count : nat;
  intent_held : bool;
  write_held : bool;
  state_seq : Z;
}.

Definition six_lock_init : six_lock :=
  {| read_count := 0; intent_held := false; write_held := false; state_seq := 0 |}.

Definition six_trylock_read (l : six_lock) : option six_lock :=
  if write_held l then None
  else Some {| read_count := S (read_count l); intent_held := intent_held l;
               write_held := false; state_seq := state_seq l |}.

Definition six_trylock_intent (l : six_lock) : option six_lock :=
  if intent_held l then None
  else Some {| read_count := read_count l; intent_held := true;
               write_held := write_held l; state_seq := state_seq l |}.

Definition six_trylock_write (l : six_lock) : option six_lock :=
  if write_held l then None
  else match read_count l with
       | O => Some {| read_count := O; intent_held := intent_held l;
                      write_held := true; state_seq := u32 (state_seq l + 1) |}
       | S _ => None
       end.

Definition six_unlock_read (l : six_lock) : six_lock :=
  {| read_count := Nat.pred (read_count l); intent_held := intent_held l;
     write_held := write_held l; state_seq := state_seq l |}.

Definition six_unlock_intent (l : six_lock) : six_lock :=
  {| read_count := read_count l; intent_held := false;
     write_held := write_held l; state_seq := state_seq l |}.

Definition six_unlock_write (l : six_lock) : six_lock :=
  {| read_count := read_count l; intent_held := intent_held l;
     write_held := false; state_seq := u32 (state_seq l + 1) |}.

(** intent to read *)
Definition six_lock_downgrade (l : six_lock) : six_lock :=
  {| read_count := S (read_count l); intent_held := false;
     write_held := write_held l; state_seq := state_seq l |}.

Definition six_trylock_type (t : six_lock_type) (l : six_lock) : option six_lock :=
  match t with
  | SIX_LOCK_read => six_trylock_read l
  | SIX_LOCK_intent => six_trylock_intent l
  | SIX_LOCK_write => six_trylock_write l
  end.

Definition six_unlock_type (t : six_lock_type) (l : six_lock) : six_lock :=
  match t with
  | SIX_LOCK_read => six_unlock_read l
  | SIX_LOCK_intent => six_unlock_intent l
  | SIX_LOCK_write => six_unlock_write l
  end.

(** *** Nodes and the cache set *)

(** [struct bkey_i]: the position, whether the key's type is one of the
    extent types ([bkey_extent_is_data]), and the u64 words of the value.
    [PTR_HASH] (btree_cache.c:55) is the first of them. *)
Record bkey_i := {
  k_p : BtreeIter.bpos;
  k_extent_is_data : bool;
  v_data : list Z;
}.

Definition PTR_HASH (k : bkey_i) : Z := default 0 (v_data k !! 0%nat).

(** [bkey_i_to_extent(&b->key)->v._data[0] = 0] *)
Definition zero_ptr_hash (k : bkey_i) : bkey_i :=
  {| k_p := k_p k; k_extent_is_data := k_extent_is_data k;
     v_data := <[0%nat := 0]> (v_data k) |}.

(** [struct btree], fields the node cache touches.  [write_blocked] says
    whether the list of that name is non-empty, [data] whether [b->data]
    is non-NULL. *)
Record btree := {
  key : bkey_i;
  level : Z;
  btree_id : BtreeIter.btree_id;
  dirty : bool;
  write_in_flight : bool;
  write_error : bool;
  noevict : bool;
  accessed : bool;
  read_error : bool;
  write_blocked : bool;
  data : bool;
  written : Z;
  nsets : Z;
  lock : six_lock;
}.

(** A [struct btree] as [kzalloc] and [six_lock_init] leave it. *)
Definition btree_zero : btree :=
  {| key := {| k_p := BtreeIter.POS3 0 0 0; k_extent_is_data := false;
               v_data := [] |};
     level := 0; btree_id := BtreeIter.BTREE_ID_EXTENTS;
     dirty := false; write_in_flight := false; write_error := false;
     noevict := false; accessed := false; read_error := false;
     write_blocked := false; data := false; written := 0; nsets := 0;
     lock := six_lock_init |}.

Definition with_key (n : btree) (k : bkey_i) : btree :=
  {| key := k; level := level n; btree_id := btree_id n; dirty := dirty n;
     write_in_flight := write_in_flight n; write_error := write_error n;
     noevict := noevict n; accessed := accessed n; read_error := read_error n;
     write_blocked := write_blocked n; data := data n; written := written n;
     nsets := nsets n; lock := lock n |}.

Definition with_lock (n : btree) (l : six_lock) : btree :=
  {| key := key n; level := level n; btree_id := btree_id n; dirty := dirty n;
     write_in_flight := write_in_flight n; write_error := write_error n;
     noevict := noevict n; accessed := accessed n; read_error := read_error n;
     write_blocked := write_blocked n; data := data n; written := written n;
     nsets := nsets n; lock := l |}.

Definition with_data (n : btree) (d : bool) : btree :=
  {| key := key n; level := level n; btree_id := btree_id n; dirty := dirty n;
     write_in_flight := write_in_flight n; write_error := write_error n;
     noevict := noevict n; accessed := accessed n; read_error := read_error n;
     write_blocked := write_blocked n; data := d; written := written n;
     nsets := nsets n; lock := lock n |}.

Definition with_nsets (n : btree) (v : Z) : btree :=
  {| key := key n; level := level n; btree_id := btree_id n; dirty := dirty n;
     write_in_flight := write_in_flight n; write_error := write_error n;
     noevict := noevict n; accessed := accessed n; read_error := read_error n;
     write_blocked := write_blocked n; data := data n; written := written n;
     nsets := v; lock := lock n |}.

Definition with_level (n : btree) (lv : Z) (id : BtreeIter.btree_id) : btree :=
  {| key := key n; level := lv; btree_id := id; dirty := dirty n;
     write_in_flight := write_in_flight n; write_error := write_error n;
     noevict := noevict n; accessed := accessed n; read_error := read_error n;
     write_blocked := write_blocked n; data := data n; written := written n;
     nsets := nsets n; lock := lock n |}.

(** [clear_btree_node_accessed(b)] *)
Definition clear_btree_node_accessed (n : btree) : btree :=
  {| key := key n; level := level n; btree_id := btree_id n; dirty := dirty n;
     write_in_flight := write_in_flight n; write_error := write_error n;
     noevict := noevict n; accessed := false; read_error := read_error n;
     write_blocked := write_blocked n; data := data n; written := written n;
     nsets := nsets n; lock := lock n |}.

(** [set_btree_node_accessed(b)] *)
Definition set_btree_node_accessed (n : btree) : btree :=
  {| key := key n; level := level n; btree_id := btree_id n; dirty := dirty n;
     write_in_flight := write_in_flight n; write_error := write_error n;
     noevict := noevict n; accessed := true; read_error := read_error n;
     write_blocked := write_blocked n; data := data n; written := written n;
     nsets := nsets n; lock := lock n |}.

(** btree_cache.c:517-523: [b->flags = 0], [b->written = 0],
    [b->nsets = 0]. *)
Definition reset_node (n : btree) : btree :=
  {| key := key n; level := level n; btree_id := btree_id n; dirty := false;
     write_in_flight := false; write_error := false;
     noevict := false; accessed := false; read_error := false;
     write_blocked := write_blocked n; data := data n; written := 0;
     nsets := 0; lock := lock n |}.

(** Modelled from the spec: btree_io.c is not among the sources.  By
    §4.2 ("No node with write_in_flight or dirty is ever released") a
    node written out and waited for ([wait_on_bit_io] on
    [BTREE_NODE_write_in_flight]) is clean with no write in flight. *)
Definition node_written_out (n : btree) : btree :=
  {| key := key n; level := level n; btree_id := btree_id n; dirty := false;
     write_in_flight := false; write_error := write_error n;
     noevict := noevict n; accessed := accessed n; read_error := read_error n;
     write_blocked := write_blocked n; data := data n; written := written n;
     nsets := nsets n; lock := lock n |}.

(** The node after [bch_btree_node_read]: the read either went through or
    left the sticky [read_error] flag. *)
Definition node_read_in (n : btree) (failed : bool) : btree :=
  {| key := key n; level := level n; btree_id := btree_id n; dirty := dirty n;
     write_in_flight := write_in_flight n; write_error := write_error n;
     noevict := noevict n; accessed := accessed n; read_error := failed;
     write_blocked := write_blocked n; data := data n; written := written n;
     nsets := nsets n; lock := lock n |}.

(** Who holds [c->btree_cache_alloc_lock]. *)
Inductive alloc_owner := Owner_none | Owner_current | Owner_other.

(** [struct cache_set], the node cache's part.  A [struct btree] is named
    by its address (a [nat]); [nodes] is the memory holding them.
    [btree_cache_table] is the rhashtable: it files a node under the key
    it was inserted with.  The three lists are kept head first.
    [btree_cache_lock_busy] says that another thread holds the mutex. *)
Record cache_set := {
  nodes : gmap nat btree;
  btree_cache_table : gmap Z nat;
  btree_cache : list nat;
  btree_cache_freeable : list nat;
  btree_cache_freed : list nat;
  btree_cache_used : Z;
  btree_cache_reserve : Z;
  btree_cache_alloc_lock : alloc_owner;
  btree_cache_lock_busy : bool;
  btree_roots : list (option nat);
  btree_shrinker_disabled : bool;
  verify_btree_ondisk : bool;
  btree_pages : Z;
}.

Definition with_nodes (c : cache_set) (m : gmap nat btree) : cache_set :=
  {| nodes := m; btree_cache_table := btree_cache_table c;
     btree_cache := btree_cache c;
     btree_cache_freeable := btree_cache_freeable c;
     btree_cache_freed := btree_cache_freed c;
     btree_cache_used := btree_cache_used c;
     btree_cache_reserve := btree_cache_reserve c;
     btree_cache_alloc_lock := btree_cache_alloc_lock c;
     btree_cache_lock_busy := btree_cache_lock_busy c;
     btree_roots := btree_roots c;
     btree_shrinker_disabled := btree_shrinker_disabled c;
     verify_btree_ondisk := verify_btree_ondisk c;
     btree_pages := btree_pages c |}.

Definition with_table (c : cache_set) (t : gmap Z nat) : cache_set :=
  {| nodes := nodes c; btree_cache_table := t;
     btree_cache := btree_cache c;
     btree_cache_freeable := btree_cache_freeable c;
     btree_cache_freed := btree_cache_freed c;
     btree_cache_used := btree_cache_used c;
     btree_cache_reserve := btree_cache_reserve c;
     btree_cache_alloc_lock := btree_cache_alloc_lock c;
     btree_cache_lock_busy := btree_cache_lock_busy c;
     btree_roots := btree_roots c;
     btree_shrinker_disabled := btree_shrinker_disabled c;
     verify_btree_ondisk := verify_btree_ondisk c;
     btree_pages := btree_pages c |}.

Definition with_lists (c : cache_set) (l1 l2 l3 : list nat) : cache_set :=
  {| nodes := nodes c; btree_cache_table := btree_cache_table c;
     btree_cache := l1;
     btree_cache_freeable := l2;
     btree_cache_freed := l3;
     btree_cache_used := btree_cache_used c;
     btree_cache_reserve := btree_cache_reserve c;
     btree_cache_alloc_lock := btree_cache_alloc_lock c;
     btree_cache_lock_busy := btree_cache_lock_busy c;
     btree_roots := btree_roots c;
     btree_shrinker_disabled := btree_shrinker_disabled c;
     verify_btree_ondisk := verify_btree_ondisk c;
     btree_pages := btree_pages c |}.

Definition with_used (c : cache_set) (u : Z) : cache_set :=
  {| nodes := nodes c; btree_cache_table := btree_cache_table c;
     btree_cache := btree_cache c;
     btree_cache_freeable := btree_cache_freeable c;
     btree_cache_freed := btree_cache_freed c;
     btree_cache_used := u;
     btree_cache_reserve := btree_cache_reserve c;
     btree_cache_alloc_lock := btree_cache_alloc_lock c;
     btree_cache_lock_busy := btree_cache_lock_busy c;
     btree_roots := btree_roots c;
     btree_shrinker_disabled := btree_shrinker_disabled c;
     verify_btree_ondisk := verify_btree_ondisk c;
     btree_pages := btree_pages c |}.

Definition with_reserve (c : cache_set) (r : Z) : cache_set :=
  {| nodes := nodes c; btree_cache_table := btree_cache_table c;
     btree_cache := btree_cache c;
     btree_cache_freeable := btree_cache_freeable c;
     btree_cache_freed := btree_cache_freed c;
     btree_cache_used := btree_cache_used c;
     btree_cache_reserve := r;
     btree_cache_alloc_lock := btree_cache_alloc_lock c;
     btree_cache_lock_busy := btree_cache_lock_busy c;
     btree_roots := btree_roots c;
     btree_shrinker_disabled := btree_shrinker_disabled c;
     verify_btree_ondisk := verify_btree_ondisk c;
     btree_pages := btree_pages c |}.

Definition with_alloc_lock (c : cache_set) (o : alloc_owner) : cache_set :=
  {| nodes := nodes c; btree_cache_table := btree_cache_table c;
     btree_cache := btree_cache c;
     btree_cache_freeable := btree_cache_freeable c;
     btree_cache_freed := btree_cache_freed c;
     btree_cache_used := btree_cache_used c;
     btree_cache_reserve := btree_cache_reserve c;
     btree_cache_alloc_lock := o;
     btree_cache_lock_busy := btree_cache_lock_busy c;
     btree_roots := btree_roots c;
     btree_shrinker_disabled := btree_shrinker_disabled c;
     verify_btree_ondisk := verify_btree_ondisk c;
     btree_pages := btree_pages c |}.

(** Apply [f] to the node at address [b]. *)
Definition upd_node (b : nat) (f : btree -> btree) (c : cache_set) : cache_set :=
  with_nodes c (alter f b (nodes c)).

Definition upd_lock (b : nat) (f : six_lock -> six_lock) (c : cache_set)
    : cache_set :=
  upd_node b (fun n => with_lock n (f (lock n))) c.

(** *** List heads *)

Inductive which_list := L_cache | L_freeable | L_freed.

Definition remove_id (b : nat) (l : list nat) : list nat :=
  List.filter (fun x => negb (Nat.eqb x b)) l.

(** [list_del_init(&b->list)]: a node is on one list at a time. *)
Definition list_del_init (b : nat) (c : cache_set) : cache_set :=
  with_lists c (remove_id b (btree_cache c))
               (remove_id b (btree_cache_freeable c))
               (remove_id b (btree_cache_freed c)).

(** [list_move(&b->list, head)], and [list_add] for a node on no list. *)
Definition list_move (b : nat) (w : which_list) (c : cache_set) : cache_set :=
  let c1 := list_del_init b c in
  match w with
  | L_cache =>
      with_lists c1 (b :: btree_cache c1) (btree_cache_freeable c1)
                 (btree_cache_freed c1)
  | L_freeable =>
      with_lists c1 (btree_cache c1) (b :: btree_cache_freeable c1)
                 (btree_cache_freed c1)
  | L_freed =>
      with_lists c1 (btree_cache c1) (btree_cache_freeable c1)
                 (b :: btree_cache_freed c1)
  end.

(** *** Reserve and free count (btree_cache.c:21-37) *)

Definition root_levels (c : cache_set) : list Reserve.root_slot :=
  (fun r => match r with
            | Some b => level <$> nodes c !! b
            | None => None
            end) <$> btree_roots c.

(** btree_cache.c:21 *)
Definition bch_recalc_btree_reserve (c : cache_set) : cache_set :=
  with_reserve c (Reserve.bch_recalc_btree_reserve (root_levels c)).

(** btree_cache.c:36: [max_t(int, 0, used - reserve)] on two unsigned
    fields. *)
Definition mca_can_free (c : cache_set) : Z :=
  Z.max 0 (s32 (u32 (btree_cache_used c - btree_cache_reserve c))).

(** *** Data pages (btree_cache.c:39-95) *)

(** btree_cache.c:48 *)
Definition mca_data_free (b : nat) (c : cache_set) : cache_set :=
  let c1 := upd_node b (fun n => with_data n false) c in
  let c2 := with_used c1 (u32 (btree_cache_used c1 - 1)) in
  list_move b L_freed c2.

(** What the allocator answers: [kzalloc], [__get_free_pages] and
    [bch_btree_keys_alloc]. *)
Record alloc_env := {
  kzalloc_ok : bool;
  pages_ok : bool;
  keys_ok : bool;
}.

(** btree_cache.c:63 *)
Definition mca_data_alloc (e : alloc_env) (b : nat) (c : cache_set) : cache_set :=
  if pages_ok e && keys_ok e then
    let c1 := upd_node b (fun n => with_data n true) c in
    let c2 := with_used c1 (u32 (btree_cache_used c1 + 1)) in
    list_move b L_freeable c2
  else
    list_move b L_freed (upd_node b (fun n => with_data n false) c).

(** The address [kzalloc] returns: one that holds no node yet. *)
Definition fresh_addr (c : cache_set) : nat := fresh (dom (nodes c)).

(** btree_cache.c:83 *)
Definition mca_bucket_alloc (e : alloc_env) (c : cache_set)
    : option nat * cache_set :=
  if kzalloc_ok e then
    let b := fresh_addr c in
    let c1 := with_nodes c (<[b := btree_zero]> (nodes c)) in
    let c2 := mca_data_alloc e b c1 in
    match nodes c2 !! b with
    | Some n => if data n then (Some b, c2) else (None, c2)
    | None => (None, c2)
    end
  else (None, c).

(** *** Outcomes of an operation on the cache set *)

(** An operation returns a value, or stops in [BUG_ON], or is still
    waiting (busy-waiting or blocked on a lock) with its patience used
    up.  Each case carries the cache set as it then is. *)
Inductive outcome (A : Type) : Type :=
| Ret (a : A) (c : cache_set)
| Bug (c : cache_set)
| Spin (c : cache_set).

Arguments Ret {A} a c.
Arguments Bug {A} c.
Arguments Spin {A} c.

Definition final_state {A} (o : outcome A) : cache_set :=
  match o with Ret _ c | Bug c | Spin c => c end.

Definition returned {A} (o : outcome A) : option A :=
  match o with Ret a _ => Some a | _ => None end.

Definition M (A : Type) : Type := cache_set -> outcome A.

Definition ret {A} (a : A) : M A := fun c => Ret a c.

Definition bind {A B} (m : M A) (f : A -> M B) : M B :=
  fun c => match m c with
           | Ret a c' => f a c'
           | Bug c' => Bug c'
           | Spin c' => Spin c'
           end.

Notation "x <- m ;; k" := (bind m (fun x => k))
  (at level 100, m at next level, right associativity).
Notation "m ;;; k" := (bind m (fun _ => k))
  (at level 100, right associativity).

(** A step that cannot fail. *)
Definition step (f : cache_set -> cache_set) : M unit := fun c => Ret tt (f c).

(** A step that cannot fail and yields a value. *)
Definition run {A} (f : cache_set -> A * cache_set) : M A :=
  fun c => let '(a, c') := f c in Ret a c'.

Definition read {A} (f : cache_set -> A) : M A := fun c => Ret (f c) c.

Definition BUG_ON (cond : bool) : M unit :=
  fun c => if cond then Bug c else Ret tt c.

(** *** The hash table (btree_cache.c:99-137) *)

(** btree_cache.c:132.  [rhashtable_lookup_fast] compares the key sought
    with the key the node wears now. *)
Definition mca_find (c : cache_set) (k : bkey_i) : option nat :=
  match btree_cache_table c !! PTR_HASH k with
  | Some b =>
      match nodes c !! b with
      | Some n => if PTR_HASH (key n) =? PTR_HASH k then Some b else None
      | None => None
      end
  | None => None
  end.

(** [rhashtable_remove_fast(&c->btree_cache_table, &b->hash, ..)]: the
    node is taken out from under its key, if it is filed there. *)
Definition rhashtable_remove_fast (b : nat) (c : cache_set) : cache_set :=
  match nodes c !! b with
  | Some n =>
      match btree_cache_table c !! PTR_HASH (key n) with
      | Some b' => if Nat.eqb b' b
                   then with_table c (delete (PTR_HASH (key n)) (btree_cache_table c))
                   else c
      | None => c
      end
  | None => c
  end.

(** btree_cache.c:99 *)
Definition mca_hash_remove (b : nat) : M unit :=
  d <- read (fun c => match nodes c !! b with
                      | Some n => dirty n | None => false end) ;;
  BUG_ON d ;;;
  step (upd_node b (fun n => with_nsets n 0)) ;;;
  step (rhashtable_remove_fast b) ;;;
  (* Cause future lookups for this node to fail: *)
  step (upd_node b (fun n => with_key n (zero_ptr_hash (key n)))).

(** [rhashtable_lookup_insert_fast]: [-EEXIST] when a node with this key
    is in the table, [-ENOMEM] when the table could not take the node
    ([fails]), 0 once the node is filed. *)
Definition rhashtable_lookup_insert_fast (fails : bool) (b : nat)
    (c : cache_set) : Z * cache_set :=
  match nodes c !! b with
  | Some n =>
      match mca_find c (key n) with
      | Some _ => (- EEXIST, c)
      | None =>
          if fails then (- ENOMEM, c)
          else (0, with_table c (<[PTR_HASH (key n) := b]> (btree_cache_table c)))
      end
  | None => (- ENOMEM, c)
  end.

(** btree_cache.c:112 *)
Definition mca_hash_insert (fails : bool) (b : nat) (lv : Z)
    (id : BtreeIter.btree_id) (c : cache_set) : Z * cache_set :=
  let c1 := upd_node b (fun n => with_level n lv id) c in
  let '(r, c2) := rhashtable_lookup_insert_fast fails b c1 in
  if r =? 0 then (0, list_move b L_cache c2) else (r, c2).

(** *** Reaping (btree_cache.c:143-196) *)

(** btree_cache.c:143.  0 leaves the node intent and write locked;
    [-ENOMEM] leaves it as it was but for the sequence number, which a
    write lock taken and dropped has advanced.  An address that holds no
    node cannot be locked. *)
Definition mca_reap_notrace (b : nat) (flush : bool) (c : cache_set)
    : Z * cache_set :=
  match nodes c !! b with
  | None => (- ENOMEM, c)
  | Some n =>
      match six_trylock_intent (lock n) with
      | None => (- ENOMEM, c)
      | Some l1 =>
          match six_trylock_write l1 with
          | None => (- ENOMEM, c)                 (* out_unlock_intent *)
          | Some l2 =>
              let out_unlock :=
                (- ENOMEM,
                 upd_node b (fun n => with_lock n
                               (six_unlock_intent (six_unlock_write l2))) c) in
              if write_error n || noevict n then out_unlock
              else if write_blocked n then out_unlock
              else if negb flush && (dirty n || write_in_flight n) then out_unlock
              else
                (0, upd_node b (fun n => with_lock (node_written_out n) l2) c)
          end
      end
  end.

(** btree_cache.c:190 *)
Definition mca_reap (b : nat) (flush : bool) (c : cache_set) : Z * cache_set :=
  mca_reap_notrace b flush c.

(** [six_unlock_write(&b->lock); six_unlock_intent(&b->lock);] *)
Definition unlock_reaped (b : nat) (c : cache_set) : cache_set :=
  upd_lock b six_unlock_intent (upd_lock b six_unlock_write c).

(** *** The shrinker (btree_cache.c:198-313) *)

Record shrink_control := {
  nr_to_scan : Z;
  gfp_io : bool;             (* sc->gfp_mask & __GFP_IO *)
}.

(** btree_cache.c:236, the walk over [btree_cache_freeable].  [l] is what
    is left of the list, [i] the loop's counter, [freed] the nodes freed
    so far. *)
Fixpoint scan_freeable (l : list nat) (nr i freed : Z) (c : cache_set)
    : Z * cache_set :=
  match l with
  | [] => (freed, c)
  | b :: rest =>
      if freed >=? nr then (freed, c)
      else
        let i := u32 (i + 1) in
        if i >? 3 then
          let '(r, c1) := mca_reap_notrace b false c in
          if r =? 0 then
            scan_freeable rest nr i (u64 (freed + 1))
              (unlock_reaped b (mca_data_free b c1))
          else scan_freeable rest nr i freed c1
        else scan_freeable rest nr i freed c
  end.

(** How one walk over [btree_cache] ends. *)
Inductive pass_end :=
| Pass_done (freed : Z) (c : cache_set)      (* left the loop, mutex held *)
| Pass_out (freed : Z) (c : cache_set)       (* goto out, mutex dropped *)
| Pass_restart (freed : Z) (c : cache_set)   (* goto restart *)
| Pass_bug (c : cache_set).

(** "Save position": [list_move_tail(&c->btree_cache, &t->list)] when the
    next entry [t] is not the list head.  [pre] are the entries walked
    past, [b] the current one, [post] those after it. *)
Definition save_position (pre : list nat) (b : nat) (post : list nat)
    (c : cache_set) : cache_set :=
  match post with
  | [] => c
  | _ :: _ => with_lists c (post ++ pre ++ [b]) (btree_cache_freeable c)
                         (btree_cache_freed c)
  end.

Definition node_accessed (b : nat) (c : cache_set) : bool :=
  match nodes c !! b with Some n => accessed n | None => false end.

(** btree_cache.c:251, one walk over [btree_cache] from its head. *)
Fixpoint scan_cache_pass (pre l : list nat) (nr : Z) (io : bool) (freed : Z)
    (c : cache_set) : pass_end :=
  match l with
  | [] => Pass_done freed c
  | b :: post =>
      if freed >=? nr then Pass_done freed (save_position pre b post c)
      else
        let '(r, c1) :=
          if node_accessed b c then (- ENOMEM, c) else mca_reap b false c in
        if negb (node_accessed b c) && (r =? 0) then
          (* can't call mca_hash_remove under btree_cache_lock *)
          let freed := u64 (freed + 1) in
          let c2 := save_position pre b post c1 in
          let c3 := mca_data_free b c2 in
          match mca_hash_remove b c3 with
          | Ret _ c4 =>
              let c5 := unlock_reaped b c4 in
              if freed >=? nr then Pass_out freed c5
              else if io || negb (btree_cache_lock_busy c5)
                   then Pass_restart freed c5
                   else Pass_out freed c5
          | Bug c4 | Spin c4 => Pass_bug c4
          end
        else
          scan_cache_pass (pre ++ [b]) post nr io freed
            (upd_node b clear_btree_node_accessed c1)
  end.

(** The walks over [btree_cache], one per [goto restart]. *)
Fixpoint scan_cache (fuel : nat) (nr : Z) (io : bool) (freed : Z)
    (c : cache_set) : outcome Z :=
  match scan_cache_pass [] (btree_cache c) nr io freed c with
  | Pass_done f c' => Ret f c'
  | Pass_out f c' => Ret f c'
  | Pass_bug c' => Bug c'
  | Pass_restart f c' =>
      match fuel with
      | O => Spin c'
      | S n => scan_cache n nr io f c'
      end
  end.

(** The number of nodes [bch_mca_scan] frees: the value of [freed] at
    [out:], or [None] when the function returns before the walk. *)
Definition mca_scan_freed (sc : shrink_control) : M (option Z) :=
  fun c =>
    if btree_shrinker_disabled c then Ret None c
    else match btree_cache_alloc_lock c with
         | Owner_current | Owner_other => Ret None c
         | Owner_none =>
             if negb (gfp_io sc) && btree_cache_lock_busy c then Ret None c
             else
               let nr := u64 (nr_to_scan sc) / btree_pages c in
               let can_free := mca_can_free c in
               let nr := Z.min nr can_free in
               let '(freed, c1) :=
                 scan_freeable (btree_cache_freeable c) nr 0 0 c in
               match scan_cache (Z.to_nat nr) nr (gfp_io sc) freed c1 with
               | Ret f c2 => Ret (Some f) c2
               | Bug c2 => Bug c2
               | Spin c2 => Spin c2
               end
         end.

(** btree_cache.c:198, the value returned. *)
Definition bch_mca_scan (sc : shrink_control) : M Z :=
  fun c => match mca_scan_freed sc c with
           | Ret (Some f) c' => Ret (u64 (f * btree_pages c')) c'
           | Ret None c' => Ret SHRINK_STOP c'
           | Bug c' => Bug c'
           | Spin c' => Spin c'
           end.

(** btree_cache.c:300.  The product is taken in the [unsigned long] the
    function returns. *)
Definition bch_mca_count (c : cache_set) : Z :=
  if btree_shrinker_disabled c then 0
  else match btree_cache_alloc_lock c with
       | Owner_current | Owner_other => 0
       | Owner_none => u64 (mca_can_free c * btree_pages c)
       end.

(** *** Cannibalizing and allocation (btree_cache.c:412-544) *)

(** btree_cache.c:412 *)
Definition mca_cannibalize_unlock (c : cache_set) : cache_set :=
  match btree_cache_alloc_lock c with
  | Owner_current => with_alloc_lock c Owner_none
  | _ => c
  end.

(** btree_cache.c:421.  [cl] says whether a closure to wait on was
    given. *)
Definition mca_cannibalize_lock (cl : bool) (c : cache_set) : Z * cache_set :=
  match btree_cache_alloc_lock c with
  | Owner_none => (0, with_alloc_lock c Owner_current)
  | Owner_current => (0, c)
  | Owner_other => if cl then (- 11, c) (* -EAGAIN *) else (- ENOMEM, c)
  end.

(** [list_for_each_entry(b, list) if (!mca_reap(c, b, flush)) ...]: the
    first node of [l] that can be reaped, which is left locked. *)
Fixpoint reap_first (flush : bool) (l : list nat) (c : cache_set)
    : option nat * cache_set :=
  match l with
  | [] => (None, c)
  | b :: rest =>
      let '(r, c1) := mca_reap b flush c in
      if r =? 0 then (Some b, c1) else reap_first flush rest c1
  end.

(** The [while (1)] of btree_cache.c:460: [cond_resched()] lets the other
    threads run ([resched]); [fuel] bounds the turns the model follows. *)
Fixpoint cannibalize_spin (fuel : nat) (resched : cache_set -> cache_set)
    (c : cache_set) : outcome nat :=
  let '(r, c1) := reap_first true (rev (btree_cache c)) c in
  match r with
  | Some b => Ret b c1
  | None =>
      match fuel with
      | O => Spin c1
      | S n => cannibalize_spin n resched (resched c1)
      end
  end.

(** btree_cache.c:452 *)
Definition mca_cannibalize (fuel : nat) (resched : cache_set -> cache_set)
    : M nat :=
  fun c =>
    let '(r, c1) := reap_first false (rev (btree_cache c)) c in
    match r with
    | Some b => Ret b c1
    | None => cannibalize_spin fuel resched c1
    end.

(** What a pointer-returning function hands back. *)
Inductive ptr :=
| NULL
| ERR_PTR (e : Z)
| NODE (b : nat).

(** What the surroundings answer while a node is allocated and filled. *)
Record fill_env := {
  fe_alloc : alloc_env;
  fe_spin : nat;                               (* turns of cannibalize *)
  fe_resched : cache_set -> cache_set;         (* cond_resched() *)
  fe_insert_fails : bool;                      (* rhashtable out of memory *)
  fe_read_fails : bool;                        (* bch_btree_node_read *)
}.

Definition node_has_data (b : nat) (c : cache_set) : bool :=
  match nodes c !! b with Some n => data n | None => false end.

(** btree_cache.c:510-528, from [out_unlock:] on. *)
Definition mca_alloc_out_unlock (b : nat) : M ptr :=
  bad <- read (fun c => match nodes c !! b with
                        | Some n => k_extent_is_data (key n)
                                    && negb (PTR_HASH (key n) =? 0)
                        | None => false end) ;;
  BUG_ON bad ;;;
  wif <- read (fun c => match nodes c !! b with
                        | Some n => write_in_flight n | None => false end) ;;
  BUG_ON wif ;;;
  step (list_del_init b) ;;;
  step (upd_node b reset_node) ;;;
  ret (NODE b).

(** btree_cache.c:529-543, from [err:] on. *)
Definition mca_alloc_err (e : fill_env) : M ptr :=
  fun c =>
    match btree_cache_alloc_lock c with
    | Owner_current =>
        (b <- mca_cannibalize (fe_spin e) (fe_resched e) ;;
         step (list_del_init b) ;;;
         mca_hash_remove b ;;;
         step (upd_node b reset_node) ;;;
         ret (NODE b)) c
    | _ => Ret (ERR_PTR (- ENOMEM)) c
    end.

(** btree_cache.c:474 *)
Definition mca_alloc (e : fill_env) : M ptr :=
  fun c =>
    let '(r, c1) := reap_first false (btree_cache_freeable c) c in
    match r with
    | Some b => mca_alloc_out_unlock b c1
    | None =>
        let '(r, c2) := reap_first false (btree_cache_freed c1) c1 in
        match r with
        | Some b =>
            let c3 := mca_data_alloc (fe_alloc e) b c2 in
            if node_has_data b c3 then mca_alloc_out_unlock b c3
            else mca_alloc_err e (unlock_reaped b c3)
        | None =>
            let '(r, c3) := mca_bucket_alloc (fe_alloc e) c2 in
            match r with
            | None => mca_alloc_err e c3
            | Some b =>
                match nodes c3 !! b with
                | None => Bug c3
                | Some n =>
                    match six_trylock_intent (lock n) with
                    | None => Bug c3
                    | Some l1 =>
                        match six_trylock_write l1 with
                        | None => Bug c3
                        | Some l2 =>
                            mca_alloc_out_unlock b
                              (upd_node b (fun n => with_lock n l2) c3)
                        end
                    end
                end
            end
        end
    end.

(** *** The iterator's locks on its nodes *)

(** [struct btree_iter] (btree_iter.h:6), the fields the node cache
    reads. *)
Record btree_iter := {
  it_btree_id : BtreeIter.btree_id;
  nodes_locked : Z;
  nodes_intent_locked : Z;
  it_nodes : list (option nat);
}.

(** Modelled from the spec: btree_locking.h is not among the sources.
    §3 gives the iterator "bitmasks of read/intent locks held"; a level
    counts -1 (unlocked), 0 (read) or 1 (intent) by its two bits. *)
Definition btree_node_locked_type (it : btree_iter) (lv : Z) : Z :=
  -1 + Z.b2z (Z.testbit (nodes_locked it) lv)
     + Z.b2z (Z.testbit (nodes_intent_locked it) lv).

Definition btree_node_read_locked (it : btree_iter) (lv : Z) : bool :=
  btree_node_locked_type it lv =? 0.

Definition btree_node_locked (it : btree_iter) (lv : Z) : bool :=
  Z.testbit (nodes_locked it) lv.

Definition mark_btree_node_unlocked (it : btree_iter) (lv : Z) : btree_iter :=
  {| it_btree_id := it_btree_id it;
     nodes_locked := Z.clearbit (nodes_locked it) lv;
     nodes_intent_locked := Z.clearbit (nodes_intent_locked it) lv;
     it_nodes := it_nodes it |}.

(** Modelled from the spec: [btree_node_unlock] (btree_locking.h) drops
    the lock the iterator holds on the node of that level, in the mode it
    holds it, and clears the level's bits. *)
Definition btree_node_unlock (it : btree_iter) (lv : Z) (c : cache_set)
    : btree_iter * cache_set :=
  let t := btree_node_locked_type it lv in
  let c' :=
    if t =? -1 then c
    else match it_nodes it !! Z.to_nat lv with
         | Some (Some b) =>
             upd_lock b (six_unlock_type
                           (if t =? 0 then SIX_LOCK_read else SIX_LOCK_intent)) c
         | _ => c
         end in
  (mark_btree_node_unlocked it lv, c').

(** btree_cache.c:584 and :661 *)
Definition drop_parent_read_lock (it : btree_iter) (lv : Z) (c : cache_set)
    : btree_iter * cache_set :=
  if btree_node_read_locked it (lv + 1) then btree_node_unlock it (lv + 1) c
  else (it, c).

(** The state in which the lock on [b] is taken: the present one when it
    is free, the one the other threads leave ([wait]) otherwise. *)
Definition lock_wait_state (wait : option (cache_set -> cache_set))
    (b : nat) (t : six_lock_type) (c : cache_set) : cache_set :=
  match nodes c !! b with
  | Some n =>
      match six_trylock_type t (lock n), wait with
      | None, Some f => f c
      | _, _ => c
      end
  | None => c
  end.

(** Modelled from the spec: [btree_node_lock] (btree_locking.h) takes the
    node's lock in mode [t], at once when it is free; otherwise it either
    refuses, which the caller surfaces as [Retry] (§4.3; [wait] is
    [None]), or blocks until the other threads have let go of the lock
    ([wait] is what they do meanwhile). *)
Definition btree_node_lock (wait : option (cache_set -> cache_set))
    (b : nat) (t : six_lock_type) : M bool :=
  fun c =>
    match nodes c !! b with
    | None => Ret false c
    | Some n =>
        match six_trylock_type t (lock n) with
        | Some l => Ret true (upd_node b (fun n => with_lock n l) c)
        | None =>
            match wait with
            | None => Ret false c
            | Some f =>
                let c1 := f c in
                match nodes c1 !! b with
                | None => Spin c1
                | Some n1 =>
                    match six_trylock_type t (lock n1) with
                    | Some l => Ret true (upd_node b (fun n => with_lock n l) c1)
                    | None => Spin c1
                    end
                end
            end
        end
    end.

(** Modelled from the spec: [btree_node_relock] (btree_locking.h)
    succeeds at once on a level the iterator still has locked; on an
    unlocked level it succeeds only if the node's lock sequence is the
    one the iterator saw (§4.3), which is for the surroundings to say:
    [again] is [None] when it fails, else what the relock does. *)
Definition btree_node_relock
    (again : option (btree_iter -> cache_set -> btree_iter * cache_set))
    (it : btree_iter) (lv : Z) (c : cache_set)
    : option (btree_iter * cache_set) :=
  if btree_node_locked it lv then Some (it, c)
  else match again with
       | Some f => Some (f it c)
       | None => None
       end.

(** *** Filling and getting a node (btree_cache.c:547-703) *)

(** btree_cache.c:547 *)
Definition bch_btree_node_fill (e : fill_env) (it : btree_iter) (k : bkey_i)
    (lv : Z) (lock_type : six_lock_type) : M (ptr * btree_iter) :=
  p <- mca_alloc e ;;
  match p with
  | NODE b =>
      step (upd_node b (fun n => with_key n k)) ;;;              (* bkey_copy *)
      r <- run (mca_hash_insert (fe_insert_fails e) b lv (it_btree_id it)) ;;
      if negb (r =? 0) then
        (* raced with another fill: mark as unhashed... *)
        step (upd_node b (fun n => with_key n (zero_ptr_hash (key n)))) ;;;
        step (list_move b L_freeable) ;;;
        step (unlock_reaped b) ;;;
        ret (NULL, it)
      else
        it' <- run (drop_parent_read_lock it lv) ;;
        step (upd_node b (fun n => node_read_in n (fe_read_fails e))) ;;;
        step (upd_lock b six_unlock_write) ;;;
        (if decide (lock_type = SIX_LOCK_read)
         then step (upd_lock b six_lock_downgrade) else ret tt) ;;;
        ret (NODE b, it')
  | other => ret (other, it)
  end.

(** What the surroundings answer during one turn of the [retry:] loop of
    [bch_btree_node_get]. *)
Record get_env := {
  ge_fill : fill_env;
  ge_lock_wait : option (cache_set -> cache_set);
  ge_race_fault : bool;                                  (* race_fault() *)
  ge_relock : option (btree_iter -> cache_set -> btree_iter * cache_set);
}.

Definition node_read_error (b : nat) (c : cache_set) : bool :=
  match nodes c !! b with Some n => read_error n | None => false end.

(** btree_cache.c:678-702: the node is found or filled and locked. *)
Definition node_get_finish (b : nat) (it : btree_iter)
    (lock_type : six_lock_type) : M (ptr * btree_iter) :=
  (* avoid atomic set bit if it's not needed: *)
  step (upd_node b (fun n => if accessed n then set_btree_node_accessed n
                             else n)) ;;;
  err <- read (node_read_error b) ;;
  if err then
    step (upd_lock b (six_unlock_type lock_type)) ;;;
    ret (ERR_PTR (- EIO), it)
  else ret (NODE b, it).

(** Does the node locked still answer to the key and level sought?
    (btree_cache.c:667) *)
Definition node_mismatch (b : nat) (k : bkey_i) (lv : Z) (c : cache_set) : bool :=
  match nodes c !! b with
  | Some n => negb (PTR_HASH (key n) =? PTR_HASH k) || negb (level n =? lv)
  | None => true
  end.

(** btree_cache.c:613, the [retry:] loop; one [get_env] per turn. *)
Fixpoint node_get_loop (envs : list get_env) (it : btree_iter) (k : bkey_i)
    (lv : Z) (lock_type : six_lock_type) : M (ptr * btree_iter) :=
  fun c =>
    match envs with
    | [] => Spin c
    | e :: rest =>
        match mca_find c k with
        | None =>
            (r <- bch_btree_node_fill (ge_fill e) it k lv lock_type ;;
             match r with
             | (NULL, it') => node_get_loop rest it' k lv lock_type
             | (ERR_PTR err, it') => ret (ERR_PTR err, it')
             | (NODE b, it') => node_get_finish b it' lock_type
             end) c
        | Some b =>
            (it1 <- run (drop_parent_read_lock it lv) ;;
             ok <- btree_node_lock (ge_lock_wait e) b lock_type ;;
             if negb ok then ret (ERR_PTR (- EINTR), it1)
             else
               bad <- read (node_mismatch b k lv) ;;
               if bad || ge_race_fault e then
                 step (upd_lock b (six_unlock_type lock_type)) ;;;
                 fun c' =>
                   match btree_node_relock (ge_relock e) it1 (lv + 1) c' with
                   | Some (it2, c'') => node_get_loop rest it2 k lv lock_type c''
                   | None => Ret (ERR_PTR (- EINTR), it1) c'
                   end
               else node_get_finish b it1 lock_type) c
        end
    end.

Section NodeGet.

(** [BTREE_MAX_DEPTH] is defined outside the sources. *)
Variable BTREE_MAX_DEPTH : Z.

(** btree_cache.c:605 *)
Definition bch_btree_node_get (envs : list get_env) (it : btree_iter)
    (k : bkey_i) (lv : Z) (lock_type : six_lock_type) : M (ptr * btree_iter) :=
  BUG_ON (lv >=? BTREE_MAX_DEPTH) ;;;
  node_get_loop envs it k lv lock_type.

End NodeGet.

(** *** Invariants of the node cache *)

(** The first word of the pointer of the node at [b], if there is one. *)
Definition hash_of (c : cache_set) (b : nat) : option Z :=
  (fun n => PTR_HASH (key n)) <$> nodes c !! b.

(** The node is reachable through the hash table: some key finds it. *)
Definition in_hash (c : cache_set) (b : nat) : Prop :=
  exists k, mca_find c k = Some b.

(** §8, invariant 3: n ∈ hash ⟺ first_ptr(n) ≠ 0. *)
Definition hash_inv (c : cache_set) : Prop :=
  forall b n, nodes c !! b = Some n ->
              (in_hash c b <-> PTR_HASH (key n) <> 0).

(** Every node in the table is filed under the key it wears. *)
Definition table_consistent (c : cache_set) : Prop :=
  forall k b, btree_cache_table c !! k = Some b -> hash_of c b = Some k.

Definition on_free_lists (c : cache_set) (b : nat) : Prop :=
  b ∈ btree_cache_freeable c \/ b ∈ btree_cache_freed c.

(** The nodes on the freeable and freed lists have their pointer word
    zeroed (all but [x], when one is named). *)
Definition lists_unhashed_but (x : option nat) (c : cache_set) : Prop :=
  forall b, on_free_lists c b -> Some b <> x ->
            hash_of c b = Some 0 \/ hash_of c b = None.

Definition inv_but (x : option nat) (c : cache_set) : Prop :=
  table_consistent c /\ hash_inv c /\ lists_unhashed_but x c.

(** The invariant of the node cache: the table is consistent, a node is
    in the hash exactly when its pointer word is non-zero, and the nodes
    set aside for reuse are unhashed. *)
Definition cache_inv (c : cache_set) : Prop := inv_but None c.

(** The node at [b], if any, has its pointer word zeroed. *)
Definition unhashed (c : cache_set) (b : nat) : Prop :=
  hash_of c b = Some 0 \/ hash_of c b = None.

(** A step from [c] to [c'] that leaves the table and every pointer word
    alone, may allocate zeroed nodes, and puts only unhashed nodes (or
    [x]) on the freeable and freed lists. *)
Definition frame_but (x : option nat) (c c' : cache_set) : Prop :=
  btree_cache_table c' = btree_cache_table c
  /\ (forall b, hash_of c' b = hash_of c b
                \/ (nodes c !! b = None /\ hash_of c' b = Some 0))
  /\ (forall b, on_free_lists c' b -> Some b <> x ->
                on_free_lists c b \/ unhashed c' b).

Definition frame (c c' : cache_set) : Prop := frame_but None c c'.

(** What an outcome guarantees: [Q] of the value returned, and the
    invariant wherever the operation stops short. *)
Definition ensures {A} (o : outcome A) (Q : A -> cache_set -> Prop) : Prop :=
  match o with
  | Ret a c' => Q a c'
  | Bug c' | Spin c' => cache_inv c'
  end.





(** *** Auxiliary notions and examples *)








(** The empty node cache. *)
Definition empty_cache_set : cache_set :=
  {| nodes := ∅; btree_cache_table := ∅;
     btree_cache := []; btree_cache_freeable := []; btree_cache_freed := [];
     btree_cache_used := 0; btree_cache_reserve := 24;
     btree_cache_alloc_lock := Owner_none; btree_cache_lock_busy := false;
     btree_roots := [None; None; None; None];
     btree_shrinker_disabled := false; verify_btree_ondisk := false;
     btree_pages := 4 |}.

(** The lock of the node at [b]. *)
Definition lock_of (c : cache_set) (b : nat) : option six_lock :=
  lock <$> nodes c !! b.

(** A btree pointer key whose first word is [h]. *)
Definition example_key (h : Z) : bkey_i :=
  {| k_p := BtreeIter.POS3 0 h 0; k_extent_is_data := true; v_data := [h] |}.

(** Memory is plentiful, the table takes the node, the read goes well. *)
Definition example_fill_env : fill_env :=
  {| fe_alloc := {| kzalloc_ok := true; pages_ok := true; keys_ok := true |};
     fe_spin := 1; fe_resched := fun c => c;
     fe_insert_fails := false; fe_read_fails := false |}.

(** The same, but the node read from disk is bad. *)
Definition example_bad_read_env : fill_env :=
  {| fe_alloc := {| kzalloc_ok := true; pages_ok := true; keys_ok := true |};
     fe_spin := 1; fe_resched := fun c => c;
     fe_insert_fails := false; fe_read_fails := true |}.

(** Nobody interferes; a relock of the parent would fail. *)
Definition example_get_env : get_env :=
  {| ge_fill := example_fill_env; ge_lock_wait := None;
     ge_race_fault := false; ge_relock := None |}.

(** An iterator on the extents tree that holds no lock. *)
Definition example_iter : btree_iter :=
  {| it_btree_id := BtreeIter.BTREE_ID_EXTENTS; nodes_locked := 0;
     nodes_intent_locked := 0; it_nodes := [] |}.

(** Every lock let go, as after the iterators have moved on. *)
Definition release_all (c : cache_set) : cache_set :=
  with_nodes c ((fun n => with_lock n six_lock_init) <$> nodes c).

(** [n] leaves with keys n, n-1, .., 1 filled into the cache. *)
Fixpoint fill_many (e : fill_env) (n : nat) (c : cache_set) : cache_set :=
  match n with
  | O => c
  | S m =>
      final_state
        (bch_btree_node_fill e example_iter (example_key (Z.of_nat n)) 0
           SIX_LOCK_read (fill_many e m c))
  end.

(** A cache of 18 nodes over a reserve of 16. *)
Definition example_full : cache_set :=
  release_all (with_reserve (fill_many example_fill_env 18
                               empty_cache_set) 16).

(** A cache holding the one node of key 1. *)
Definition example_one : cache_set :=
  release_all (fill_many example_fill_env 1 empty_cache_set).

(** The same, the node having failed to read. *)
Definition example_one_bad : cache_set :=
  release_all (fill_many example_bad_read_env 1 empty_cache_set).

Definition example_sc : shrink_control := {| nr_to_scan := 100; gfp_io := true |}.

(** The cache of one node with that node read locked by the caller. *)
Definition example_locked : cache_set :=
  final_state
    (btree_node_lock (ge_lock_wait example_get_env) 0%nat SIX_LOCK_read
       (snd (drop_parent_read_lock example_iter 1 example_one))).

End NodeCache.

(* ===================================================================== *)
(** * Proofs *)
(* ===================================================================== *)

Module IntsFacts.

Lemma u32_range x : in_u32 (u32 x).
Proof. unfold in_u32, u32, uwrap. apply Z.mod_pos_bound. lia. Qed.


Lemma s32_range x : in_s32 (s32 x).
Proof.
  unfold in_s32, s32, swrap.
  pose proof (Z.mod_pos_bound (x + 2 ^ (32 - 1)) (2 ^ 32) ltac:(lia)).
  change (2 ^ (32 - 1)) with 2147483648 in *.
  change (2 ^ 32) with 4294967296 in *.
  change (2 ^ 31) with 2147483648. lia.
Qed.

Lemma u32_id x : in_u32 x -> u32 x = x.
Proof. unfold in_u32, u32, uwrap. intros. apply Z.mod_small. lia. Qed.


Lemma s32_id x : in_s32 x -> s32 x = x.
Proof.
  unfold in_s32, s32, swrap. intros H.
  change (2 ^ (32 - 1)) with 2147483648.
  change (2 ^ 31) with 2147483648 in H.
  rewrite Z.mod_small; lia.
Qed.


Lemma uwrap_range w x : 0 <= w -> 0 <= uwrap w x < 2 ^ w.
Proof. intros. unfold uwrap. apply Z.mod_pos_bound. apply Z.pow_pos_nonneg; lia. Qed.

Lemma uwrap_id w x : 0 <= x < 2 ^ w -> uwrap w x = x.
Proof. intros. unfold uwrap. apply Z.mod_small. lia. Qed.

(** One wrap of an unsigned sum. *)
Lemma uwrap_add_once w x y :
  0 <= w -> 0 <= x < 2 ^ w -> 0 <= y < 2 ^ w -> 2 ^ w <= x + y ->
  uwrap w (x + y) = x + y - 2 ^ w.
Proof.
  intros Hw Hx Hy Hxy. unfold uwrap.
  replace (x + y) with ((x + y - 2 ^ w) + 1 * 2 ^ w) at 1 by lia.
  rewrite Z.mod_add by lia. apply Z.mod_small. lia.
Qed.

End IntsFacts.

(* --------------------------------------------------------------------- *)
(** ** btree_iter.h *)
(* --------------------------------------------------------------------- *)

Module BtreeIterFacts.

Import BtreeIter IntsFacts.





End BtreeIterFacts.

(* --------------------------------------------------------------------- *)
(** ** btree_cache.c: the reserve *)
(* --------------------------------------------------------------------- *)

Module ReserveFacts.

Import Reserve IntsFacts.

Lemma root_share_small level :
  0 <= level < 256 -> root_share level = Z.min 1 level * 8.
Proof.
  intros H. unfold root_share.
  rewrite (u32_id level) by (unfold in_u32; lia).
  apply u32_id. unfold in_u32. lia.
Qed.

Lemma spec_root_sum_bounds roots :
  levels_ok roots ->
  0 <= spec_root_sum roots <= 8 * Z.of_nat (length roots).
Proof.
  induction 1 as [|r rs Hr _ IH]; simpl; [lia|].
  destruct r as [l|]; lia.
Qed.

(** The loop of btree_cache.c:28 adds up the shares, as long as the sum
    stays within [unsigned]. *)
Lemma fold_reserve_step roots : forall acc,
  levels_ok roots -> 0 <= acc ->
  acc + 8 * Z.of_nat (length roots) < 2 ^ 32 ->
  fold_left reserve_step roots acc = acc + spec_root_sum roots.
Proof.
  induction roots as [|r rs IH]; intros acc Hok Hacc Hlen; simpl.
  - lia.
  - inversion Hok as [|? ? Hr Hrs]; subst.
    pose proof (spec_root_sum_bounds rs Hrs) as Hb.
    simpl length in Hlen. rewrite Nat2Z.inj_succ in Hlen.
    destruct r as [l|]; simpl.
    + rewrite root_share_small by assumption.
      rewrite u32_id by (unfold in_u32; lia).
      rewrite IH; [lia | assumption | lia | lia].
    + rewrite IH; [lia | assumption | lia | lia].
Qed.

(** C7, as the code has it.  The reserve is 16, plus 8 when btree root 0
    is absent, plus min(1, level) × 8 for each root present. *)
Theorem bch_recalc_btree_reserve_value (roots : list root_slot) :
  levels_ok roots -> Z.of_nat (length roots) < 2 ^ 28 ->
  bch_recalc_btree_reserve roots
  = 16 + (match roots !! 0%nat with Some (Some _) => 0 | _ => 8 end)
       + spec_root_sum roots.
Proof.
  intros Hok Hlen. unfold bch_recalc_btree_reserve.
  assert (H28 : 2 ^ 28 = 268435456) by reflexivity.
  assert (H32 : 2 ^ 32 = 4294967296) by reflexivity.
  destruct (roots !! 0%nat) as [[l|]|].
  - rewrite fold_reserve_step; [lia | assumption | lia | lia].
  - rewrite (u32_id (16 + 8)) by (unfold in_u32; lia).
    rewrite fold_reserve_step; [lia | assumption | lia | lia].
  - rewrite (u32_id (16 + 8)) by (unfold in_u32; lia).
    rewrite fold_reserve_step; [lia | assumption | lia | lia].
Qed.

(** Four roots: an interior root 0, no root 1, a leaf, another interior
    root. *)
Lemma bch_recalc_btree_reserve_value_witness :
  bch_recalc_btree_reserve [Some 2; None; Some 0; Some 1] = 32.
Proof.
  rewrite (bch_recalc_btree_reserve_value [Some 2; None; Some 0; Some 1]).
  - reflexivity.
  - repeat constructor; lia.
  - simpl. lia.
Defined.

(** C7 as stated fails: with no root present yet (the state in which
    [bch_fs_btree_init] calls the function) the reserve is 24, where the
    formula 16 + Σ min(1, level) × 8 gives 16. *)
Lemma bch_recalc_btree_reserve_counterexample :
  bch_recalc_btree_reserve [None; None; None; None] = 24
  /\ spec_reserve [None; None; None; None] = 16.
Proof. split; reflexivity. Qed.

End ReserveFacts.

(* --------------------------------------------------------------------- *)
(** ** request.c: congestion *)
(* --------------------------------------------------------------------- *)

Module CongestedFacts.

Import Request IntsFacts.

Lemma bitmap_weight_zero nbits : bitmap_weight nbits 0 = 0.
Proof.
  induction nbits as [|n IH]; simpl; [reflexivity|].
  rewrite Z.bits_0, IH. reflexivity.
Qed.

Lemma bitmap_weight_bounds nbits x :
  0 <= bitmap_weight nbits x <= Z.of_nat nbits.
Proof.
  induction nbits as [|n IH]; simpl bitmap_weight; [simpl; lia|].
  rewrite Nat2Z.inj_succ. destruct (Z.testbit x (Z.of_nat n)); simpl Z.b2z; lia.
Qed.

(** C4, as the code has it.  [bch_get_congested] returns 0 when
    congestion is disabled, and also when the time since the last
    congestion event, in units of 1024 µs, is negative as an [int] or
    makes up for the (negative) counter: elapsed + counter >= 0.
    Otherwise i = elapsed + counter + CONGESTED_MAX (the elapsed time is
    added), i is mapped through [fract_exp_two(i, 6)] when positive, the
    popcount of a random word is subtracted, and the result is returned
    when positive, 1 when not: never 0. *)
Theorem bch_get_congested_value
    (CONGESTED_MAX : Z) (fract_exp_two : Z -> Z -> Z) (BITS_PER_LONG : nat)
    (clock_bits : Z) (c : cache_set) (now_us rand : Z) :
  let e := congested_elapsed clock_bits c now_us in
  let w := bitmap_weight BITS_PER_LONG rand in
  let r := bch_get_congested CONGESTED_MAX fract_exp_two BITS_PER_LONG
             clock_bits c now_us rand in
  (congestion_disabled c = true -> r = 0)
  /\ (e < 0 \/ 0 <= s32 (e + congested c) -> r = 0)
  /\ (congestion_disabled c = false ->
      0 <= e -> in_s32 (congested c) -> e + congested c < 0 ->
      0 <= CONGESTED_MAX < 2 ^ 31 ->
      let i := e + congested c + CONGESTED_MAX in
      let j := if 0 <? i then s32 (fract_exp_two i 6) else i in
      r = Z.max 1 (s32 (j - w))).
Proof.
  intros e w r. subst r. unfold bch_get_congested. fold e. fold w.
  split; [|split].
  - intros ->. reflexivity.
  - intros H. destruct (congestion_disabled c); [reflexivity|].
    destruct (Z.ltb_spec e 0); [reflexivity|].
    destruct H as [H|H]; [lia|].
    destruct (Z.geb_spec (s32 (e + congested c)) 0); [reflexivity | lia].
  - intros Hen He Hc Hneg Hmax. cbv zeta.
    set (i := e + congested c + CONGESTED_MAX).
    set (j := if 0 <? i then s32 (fract_exp_two i 6) else i).
    rewrite Hen.
    pose proof (s32_range (uwrap clock_bits (now_us - congested_last_us c) / 1024))
      as Her. fold (congested_elapsed clock_bits c now_us) in Her. fold e in Her.
    unfold in_s32 in *.
    destruct (Z.ltb_spec e 0); [lia|].
    rewrite (s32_id (e + congested c)) by (unfold in_s32; lia).
    destruct (Z.geb_spec (e + congested c) 0); [lia|].
    rewrite (s32_id (e + congested c + CONGESTED_MAX)) by (unfold in_s32; lia).
    fold i. rewrite !Z.gtb_ltb. fold j.
    destruct (Z.ltb_spec 0 (s32 (j - w))); lia.
Qed.

(** 10 units after the last congestion event, counter at -100:
    i = 10 - 100 + 1024 = 934, [fract_exp_two] gives 26112, the random
    word 5 has two bits set. *)
Lemma bch_get_congested_value_witness :
  bch_get_congested 1024 example_fract_exp_two 64 64 example_congested 10240 5
  = 26110.
Proof.
  rewrite (proj2 (proj2 (bch_get_congested_value 1024 example_fract_exp_two
                           64 64 example_congested 10240 5))).
  - reflexivity.
  - reflexivity.
  - vm_compute. discriminate.
  - unfold in_s32. simpl. lia.
  - vm_compute. reflexivity.
  - lia.
Defined.

(** C4 as stated fails: with congestion tracking on and the counter at
    rest (0), right at the time of the last event, the code returns 0
    whatever [fract_exp_two] and the word sizes are, where the formula
    max(0, CONGESTED_MAX - elapsed + counter), with a random word of 0
    (no dither), gives CONGESTED_MAX = 1024. *)
Lemma bch_get_congested_counterexample :
  (forall f bits cb,
     bch_get_congested 1024 f bits cb example_uncongested 0 0 = 0)
  /\ (forall bits cb,
        spec_get_congested 1024 bits cb example_uncongested 0 0 = 1024).
Proof.
  split.
  - intros f bits cb. unfold bch_get_congested, congested_elapsed. simpl.
    reflexivity.
  - intros bits cb. unfold spec_get_congested, congested_elapsed. simpl.
    rewrite bitmap_weight_zero. reflexivity.
Qed.

End CongestedFacts.

(* --------------------------------------------------------------------- *)
(** ** request.c: the sequential detector and the bypass decision *)
(* --------------------------------------------------------------------- *)

Module BypassFacts.

Import Request IntsFacts.

Section Detector.

Variable iohash_bucket : Z -> Z.
Variable time_before : Z -> Z -> bool.
Variable msecs_to_jiffies : Z -> Z.
Variable ewma_add : Z -> Z -> Z -> Z.
Variable long_bits : Z.
Variable seq_bits : Z.

Local Abbreviation detect :=
  (sequential_detect iohash_bucket time_before msecs_to_jiffies ewma_add
     long_bits seq_bits).
Local Abbreviation should_bypass :=
  (check_should_bypass iohash_bucket time_before msecs_to_jiffies ewma_add
     long_bits seq_bits).

(** The entry the chain walk stops at passes the test of request.c:136. *)
Lemma find_recent_io_hit jiffies b entries chain i :
  find_recent_io time_before jiffies b entries chain = Some i ->
  exists e, entries !! i = Some e /\ io_hit time_before jiffies b e = true.
Proof.
  induction chain as [|j rest IH]; simpl; [discriminate|].
  destruct (entries !! j) as [e|] eqn:He; [|exact IH].
  destruct (io_hit time_before jiffies b e) eqn:Hhit; [|exact IH].
  intros [= <-]. eauto.
Qed.

(** The guarded addition never wraps: it adds when the sum fits the type
    and leaves the run alone when it does not. *)
Lemma merge_sequential_no_wrap seq size :
  32 <= seq_bits -> 0 <= seq < 2 ^ seq_bits -> 0 <= size < 2 ^ 32 ->
  merge_sequential seq_bits seq size
  = if seq + size <? 2 ^ seq_bits then seq + size else seq.
Proof.
  intros Hw Hseq Hsize. unfold merge_sequential.
  assert (Hpow : 2 ^ 32 <= 2 ^ seq_bits) by (apply Z.pow_le_mono_r; lia).
  destruct (Z.ltb_spec (seq + size) (2 ^ seq_bits)) as [Hfit|Hover].
  - rewrite uwrap_id by lia.
    destruct (Z.gtb_spec (seq + size) seq); [reflexivity | lia].
  - rewrite uwrap_add_once by lia.
    destruct (Z.gtb_spec (seq + size - 2 ^ seq_bits) seq); [lia | reflexivity].
Qed.

(** What the detector leaves in the entry it used, and in the task. *)
Lemma sequential_detect_entry dc b task jiffies i hit dc' task' :
  detect dc b task jiffies = Some (i, hit, dc', task') ->
  (i < length (ios dc))%nat ->
  let prior := if hit then default 0 (io_sequential <$> ios dc !! i) else 0 in
  let run := merge_sequential seq_bits prior (bi_size b) in
  ios dc' !! i
  = Some {| io_last := bio_end_sector b;
            io_last_io := uwrap long_bits (jiffies + msecs_to_jiffies 5000);
            io_sequential := run |}
  /\ sequential_io task' = u32 run
  /\ sequential_cutoff dc' = sequential_cutoff dc
  /\ sequential_io_avg task'
     = (if hit then sequential_io_avg task
        else ewma_add (sequential_io_avg task) (sequential_io task) 3).
Proof.
  unfold sequential_detect. intros H Hi.
  destruct (find_recent_io time_before jiffies b (ios dc)
              (iohash iohash_bucket dc (bi_sector b))) as [i0|] eqn:Hfind.
  - destruct (ios dc !! i0) as [e|] eqn:He; [|discriminate].
    injection H as <- <- <- <-. cbv zeta. rewrite He. simpl.
    rewrite list_lookup_insert_eq by assumption. auto.
  - destruct (io_lru dc) as [|i0 lru]; [discriminate|].
    injection H as <- <- <- <-. cbv zeta. simpl.
    rewrite list_lookup_insert_eq by assumption. auto.
Qed.

(** A hit names an entry of the ring. *)
Lemma sequential_detect_hit dc b task jiffies i dc' task' :
  detect dc b task jiffies = Some (i, true, dc', task') ->
  exists e, ios dc !! i = Some e
            /\ io_last e = bi_sector b
            /\ time_before jiffies (io_last_io e) = true.
Proof.
  unfold sequential_detect. intros H.
  destruct (find_recent_io time_before jiffies b (ios dc)
              (iohash iohash_bucket dc (bi_sector b))) as [i0|] eqn:Hfind.
  - destruct (find_recent_io_hit _ _ _ _ _ Hfind) as (e & He & Hhit).
    rewrite He in H. injection H as <- _ _. exists e.
    unfold io_hit in Hhit. apply andb_true_iff in Hhit as [Hl Ht].
    apply Z.eqb_eq in Hl. auto.
  - destruct (io_lru dc); discriminate H.
Qed.

(** C10.  In the sequential detector the run length [i->sequential] of
    the entry used grows by the bio's size only when the unsigned sum
    fits its type; when the sum would wrap the run length stays as it
    was.  The prior run is the entry's own on a hit and 0 on a miss
    (request.c:143). *)
Theorem sequential_run_guarded dc b task jiffies i hit dc' task' :
  32 <= seq_bits ->
  0 <= bi_size b < 2 ^ 32 ->
  Forall (fun e => 0 <= io_sequential e < 2 ^ seq_bits) (ios dc) ->
  (i < length (ios dc))%nat ->
  sequential_detect iohash_bucket time_before msecs_to_jiffies ewma_add
    long_bits seq_bits dc b task jiffies = Some (i, hit, dc', task') ->
  let prior := if hit then default 0 (io_sequential <$> ios dc !! i) else 0 in
  exists e', ios dc' !! i = Some e'
    /\ io_sequential e'
       = (if prior + bi_size b <? 2 ^ seq_bits
          then prior + bi_size b else prior).
Proof.
  intros Hw Hsize Hall Hi Hd prior.
  destruct (sequential_detect_entry _ _ _ _ _ _ _ _ Hd Hi) as (He' & _).
  eexists. split; [exact He'|]. simpl. fold prior.
  apply merge_sequential_no_wrap; [assumption | | assumption].
  subst prior. destruct hit.
  - destruct (ios dc !! i) as [e|] eqn:He; simpl.
    + rewrite Forall_forall in Hall. apply Hall.
      eapply list_elem_of_lookup_2. exact He.
    + split; [lia|]. apply Z.pow_pos_nonneg; lia.
  - split; [lia|]. apply Z.pow_pos_nonneg; lia.
Qed.

(** C5, as the code has it.  When the detector is consulted and hits,
    the entry hit ended at the bio's first sector and its time stamp
    (set 5000 ms ahead when it was last used) has not passed; the entry's
    run grows by the bio's size (guarded against wrap-around) and becomes
    the task's run.  The request then bypasses the cache exactly when
    [sequential_cutoff] is non-zero and the larger of the run and the
    task's average run, counted in 512-byte sectors, reaches the cutoff
    counted in sectors, or the cache set is congested and that figure
    reaches the congestion threshold. *)
Theorem sequential_hit_and_bypass (c : cache_set) (dc : cached_dev) (b : bio)
    (task : task_struct) (cong rand jiffies : Z) (i : nat)
    (dc' : cached_dev) (task' : task_struct) :
  bypass_early c dc b cong rand = None ->
  detect dc b task jiffies = Some (i, true, dc', task') ->
  exists e,
    ios dc !! i = Some e
    /\ io_last e = bi_sector b
    /\ time_before jiffies (io_last_io e) = true
    /\ ios dc' !! i
       = Some {| io_last := bio_end_sector b;
                 io_last_io := uwrap long_bits (jiffies + msecs_to_jiffies 5000);
                 io_sequential :=
                   merge_sequential seq_bits (io_sequential e) (bi_size b) |}
    /\ sequential_io task'
       = u32 (merge_sequential seq_bits (io_sequential e) (bi_size b))
    /\ exists skip dc'',
         should_bypass c dc b task cong rand jiffies = Some (skip, dc'', task')
         /\ let sectors :=
              Z.shiftr (Z.max (sequential_io task') (sequential_io_avg task)) 9 in
            (skip = true <->
             (sequential_cutoff dc <> 0
              /\ Z.shiftr (sequential_cutoff dc) 9 <= sectors)
             \/ (cong <> 0 /\ cong <= sectors)).
Proof.
  intros Hearly Hd.
  destruct (sequential_detect_hit _ _ _ _ _ _ _ Hd) as (e & He & Hlast & Htime).
  assert (Hi : (i < length (ios dc))%nat) by (eapply lookup_lt_Some; exact He).
  destruct (sequential_detect_entry _ _ _ _ _ _ _ _ Hd Hi)
    as (He' & Hrun & Hcut & Havg).
  cbv zeta in He', Hrun. rewrite He in He', Hrun. simpl in He', Hrun.
  exists e. repeat (split; [assumption|]).
  unfold check_should_bypass. rewrite Hearly, Hd.
  assert (Hlate :
    bypass_late dc' cong (task_sectors task') = true <->
    (sequential_cutoff dc <> 0
     /\ Z.shiftr (sequential_cutoff dc) 9
        <= Z.shiftr (Z.max (sequential_io task') (sequential_io_avg task)) 9)
    \/ (cong <> 0
        /\ cong <= Z.shiftr (Z.max (sequential_io task') (sequential_io_avg task)) 9)).
  { unfold bypass_late, task_sectors. rewrite Hcut, Havg.
    rewrite orb_true_iff, !andb_true_iff, !negb_true_iff, !Z.eqb_neq.
    rewrite !Z.geb_le. tauto. }
  destruct (bypass_late dc' cong (task_sectors task')) eqn:Hl.
  - eexists true, _. split; [reflexivity|]. cbv zeta. tauto.
  - eexists false, _. split; [reflexivity|]. cbv zeta.
    split; [discriminate|]. intros H. apply Hlate in H. discriminate H.
Qed.

End Detector.

(** *** An example: a task with a long sequential history *)

Local Abbreviation example_detect :=
  (sequential_detect (fun k => k) Z.ltb (fun ms => ms) example_ewma 64 32).
Local Abbreviation example_should_bypass :=
  (check_should_bypass (fun k => k) Z.ltb (fun ms => ms) example_ewma 64 32).

Lemma example_detect_hit :
  example_detect example_dc example_bio example_fresh_task 50
  = Some (0%nat, true, example_dc_after, example_task_after).
Proof. vm_compute. reflexivity. Qed.

(** The 4 KiB run of the example grows to 8 KiB. *)
Lemma sequential_run_guarded_witness :
  exists e', ios example_dc_after !! 0%nat = Some e'
             /\ io_sequential e' = 8192.
Proof.
  apply (sequential_run_guarded (fun k => k) Z.ltb (fun ms => ms) example_ewma
           64 32 example_dc example_bio example_fresh_task 50 0%nat true
           example_dc_after example_task_after).
  - lia.
  - simpl. lia.
  - repeat constructor; simpl; lia.
  - simpl. lia.
  - exact example_detect_hit.
Defined.

(** A run 100 bytes short of 4 GiB is left alone by a 4 KiB bio. *)
Example merge_sequential_saturates :
  merge_sequential 32 (2 ^ 32 - 100) 4096 = 2 ^ 32 - 100.
Proof. reflexivity. Qed.

(** The example's hit: the entry ended at sector 1000 and is good until
    jiffy 100; its run becomes 8 KiB, far below the 4 MiB cutoff, and a
    task without history is not bypassed. *)
Lemma sequential_hit_and_bypass_witness :
  exists dc'',
    example_should_bypass example_cache_set example_dc example_bio
      example_fresh_task 0 0 50
    = Some (false, dc'', example_task_after).
Proof.
  destruct (sequential_hit_and_bypass (fun k => k) Z.ltb (fun ms => ms)
              example_ewma 64 32 example_cache_set example_dc example_bio
              example_fresh_task 0 0 50 0%nat example_dc_after
              example_task_after)
    as (e & _ & _ & _ & _ & _ & skip & dc'' & Hrun & Hskip).
  - reflexivity.
  - exact example_detect_hit.
  - exists dc''. rewrite Hrun. destruct skip; [|reflexivity].
    exfalso. cbv zeta in Hskip. destruct Hskip as [Hskip _].
    destruct (Hskip eq_refl) as [[_ H]|[H _]].
    + vm_compute in H. apply H. reflexivity.
    + apply H. reflexivity.
Defined.

(** C5 as stated fails: the same hit by a task whose average sequential
    run is 8 MiB.  The entry's run after the merge is 8192 bytes, short of
    the 4 MiB cutoff, and yet the request bypasses the cache. *)
Lemma sequential_bypass_counterexample :
  exists dc' task' dc'',
    example_detect example_dc example_bio example_task 50
    = Some (0%nat, true, dc', task')
    /\ io_sequential <$> ios dc' !! 0%nat = Some 8192
    /\ example_should_bypass example_cache_set example_dc example_bio
         example_task 0 0 50
       = Some (true, dc'', task')
    /\ spec_sequential_bypass 8192 (sequential_cutoff example_dc) = false.
Proof. eexists _, _, _. vm_compute. repeat split; reflexivity. Qed.

End BypassFacts.

(* --------------------------------------------------------------------- *)
(** ** request.c: the make_request functions *)
(* --------------------------------------------------------------------- *)

Module RequestFacts.

Import Request IntsFacts.

(** *** Blockdev volumes *)

(** C8.  A non-discard write to a blockdev volume for which
    [bch_disk_reservation_get] fails is completed at once with
    [bi_error = -ENOSPC]: the calls made are the accounting, the failed
    reservation and the completion of the submitter's bio, and no write
    operation is started.  (A bio of size 0 asks for no reservation.) *)
Theorem blockdev_volume_write_enospc (env : req_env) (b : bio) :
  bio_data_dir b = true ->
  bi_op b <> REQ_OP_DISCARD ->
  bi_size b <> 0 ->
  env_reservation env <> 0 ->
  snd (__blockdev_volume_make_request env b)
  = [Ev_start_io_acct true (bio_sectors b);
     Ev_disk_reservation_get (bio_sectors b) (env_reservation env);
     Ev_end_io_acct true;
     Ev_bio_endio b (- ENOSPC);
     Ev_search_freed]
  /\ orig_bio (fst (__blockdev_volume_make_request env b)) = None
  /\ iop_error (fst (__blockdev_volume_make_request env b)) = - ENOSPC
  /\ existsb cache_insert (snd (__blockdev_volume_make_request env b)) = false.
Proof.
  intros Hrw Hop Hsize Hres. unfold __blockdev_volume_make_request.
  rewrite Hrw.
  destruct (Z.eqb_spec (bi_size b) 0) as [|_]; [contradiction|].
  rewrite bool_decide_eq_false_2 by assumption.
  destruct (Z.eqb_spec (env_reservation env) 0) as [|_]; [contradiction|].
  simpl. rewrite Hrw. auto.
Qed.

Lemma blockdev_volume_write_enospc_witness :
  snd (__blockdev_volume_make_request example_env example_write)
  = [Ev_start_io_acct true 8;
     Ev_disk_reservation_get 8 (- ENOSPC);
     Ev_end_io_acct true;
     Ev_bio_endio example_write (- ENOSPC);
     Ev_search_freed].
Proof.
  apply (blockdev_volume_write_enospc example_env example_write).
  - reflexivity.
  - discriminate.
  - simpl. lia.
  - vm_compute. discriminate.
Defined.

(** With the reservation granted the same write starts a write operation
    and its completion is left to the closure. *)
Example blockdev_volume_write_ok :
  let env := {| env_jiffies := 50; env_now_us := 0; env_rand := 0;
                env_rand_torture := 0; env_inum := 7;
                env_overlapping := false; env_queue_discard := true;
                env_journal_refs := 1; env_reservation := 0 |} in
  existsb cache_insert (snd (__blockdev_volume_make_request env example_write))
  = true
  /\ cl_fn (fst (__blockdev_volume_make_request env example_write))
     = Some K_search_free.
Proof. split; reflexivity. Qed.

(** *** Cached devices *)

Section CachedDev.

Variable CONGESTED_MAX : Z.
Variable fract_exp_two : Z -> Z -> Z.
Variable BITS_PER_LONG : nat.
Variable clock_bits : Z.
Variable iohash_bucket : Z -> Z.
Variable time_before : Z -> Z -> bool.
Variable msecs_to_jiffies : Z -> Z.
Variable ewma_add : Z -> Z -> Z -> Z.
Variable long_bits : Z.
Variable seq_bits : Z.
Variable should_writeback : cached_dev -> bio -> cache_mode -> bool -> bool.

Local Abbreviation make_request :=
  (__cached_dev_make_request CONGESTED_MAX fract_exp_two BITS_PER_LONG
     clock_bits iohash_bucket time_before msecs_to_jiffies ewma_add long_bits
     seq_bits should_writeback).

(** C6, as the code has it.  An empty bio carrying PREFLUSH (not a
    discard) has exactly one bio handed to the backing device, the flush
    itself, and causes no lookup in the extents tree, no read from a
    cache device and no write operation; but when the device is attached
    to a cache set, the cache set is asked to flush its journal
    ([bch_journal_flush_async]) before the flush goes down. *)
Theorem cached_dev_empty_flush (env : req_env) (c : cache_set)
    (dc : cached_dev) (task : task_struct) (b : bio) :
  bi_size b = 0 ->
  REQ_PREFLUSH (bi_opf b) = true ->
  bi_op b <> REQ_OP_DISCARD ->
  exists dc' s t,
    make_request env c dc task b = Some (dc', task, s, t)
    /\ List.filter backing_submit t = [Ev_submit (to_backing dc b)]
    /\ existsb cache_lookup t = false
    /\ existsb cache_insert t = false
    /\ List.filter cache_traffic t
       = (if count dc =? 0 then [] else [Ev_journal_flush_async]).
Proof.
  intros Hsize Hflush Hop. unfold __cached_dev_make_request, cached_dev_get.
  fold (to_backing dc b).
  destruct (Z.eqb_spec (count dc) 0) as [Hc|Hc].
  - rewrite bool_decide_eq_false_2 by assumption. simpl.
    eexists _, _, _. split; [reflexivity|]. simpl. auto.
  - simpl bi_size. rewrite Hsize. simpl. rewrite Hflush. simpl.
    eexists _, _, _. split; [reflexivity|]. simpl. auto.
Qed.

End CachedDev.

(** The flush of the example, sent to an attached device. *)
Lemma cached_dev_empty_flush_witness :
  exists dc' s t,
    __cached_dev_make_request 1024 example_fract_exp_two 64 64
      (fun k => k) Z.ltb (fun ms => ms) example_ewma 64 32
      (fun _ _ _ _ => false)
      example_env example_cache_set example_dc
      example_fresh_task example_flush
    = Some (dc', example_fresh_task, s, t)
    /\ List.filter backing_submit t
       = [Ev_submit (to_backing example_dc example_flush)].
Proof.
  destruct (cached_dev_empty_flush 1024 example_fract_exp_two
              64 64 (fun k => k) Z.ltb (fun ms => ms) example_ewma
              64 32 (fun _ _ _ _ => false)
              example_env example_cache_set example_dc
              example_fresh_task example_flush)
    as (dc' & s & t & Hreq & Hsub & _).
  - reflexivity.
  - reflexivity.
  - discriminate.
  - exists dc', s, t. auto.
Defined.

(** C6 as stated fails: the empty flush of the example, sent to a device
    attached to a cache set, makes the request path call
    [bch_journal_flush_async] on the cache set's journal, which is
    traffic to the cache. *)
Lemma cached_dev_empty_flush_counterexample :
  exists dc' s t,
    __cached_dev_make_request 1024 example_fract_exp_two 64 64
      (fun k => k) Z.ltb (fun ms => ms) example_ewma 64 32
      (fun _ _ _ _ => false)
      example_env example_cache_set example_dc
      example_fresh_task example_flush
    = Some (dc', example_fresh_task, s, t)
    /\ t = [Ev_start_io_acct true 0; Ev_journal_flush_async;
            Ev_submit (to_backing example_dc example_flush)]
    /\ existsb cache_traffic t = true.
Proof. eexists _, _, _. vm_compute. repeat split; reflexivity. Qed.

End RequestFacts.

(* --------------------------------------------------------------------- *)
(** ** btree_cache.c: the shrinker and the reserve *)
(* --------------------------------------------------------------------- *)

Module ShrinkerFacts.

Import NodeCache IntsFacts.










Section Scan.

(** The pages in use when the scan starts, the limit it works to, and the
    rest of the books. *)
Variables (U0 nr R P : Z).
Hypothesis U0_range : in_u32 U0.
Hypothesis nr_range : 0 <= nr <= U0.





End Scan.


End ShrinkerFacts.

(* --------------------------------------------------------------------- *)
(** ** btree_cache.c: the hash table invariant *)
(* --------------------------------------------------------------------- *)

Module HashFacts.

Import NodeCache IntsFacts.

(** *** Reading the definitions *)








(** *** Frames *)







(** *** The steps that are frames *)

Lemma elem_of_remove_id x b l : x ∈ remove_id b l <-> x ∈ l /\ x <> b.
Proof.
  unfold remove_id. rewrite !list_elem_of_In, filter_In, negb_true_iff.
  rewrite Nat.eqb_neq. reflexivity.
Qed.


(** A step that changes neither the table nor any pointer word, and adds
    nothing but [x] to the free lists. *)
Lemma frame_but_of x c c' :
  btree_cache_table c' = btree_cache_table c ->
  (forall b, hash_of c' b = hash_of c b) ->
  (forall b, on_free_lists c' b -> Some b <> x -> on_free_lists c b) ->
  frame_but x c c'.
Proof. intros Ht Hh Hl. repeat split; auto. Qed.





Lemma on_free_lists_list_move x b w c :
  on_free_lists (list_move b w c) x ->
  (x = b /\ w <> L_cache) \/ (on_free_lists c x /\ x <> b).
Proof.
  unfold on_free_lists, list_move, list_del_init.
  destruct w; simpl; rewrite ?elem_of_cons, !elem_of_remove_id;
    intros H; destruct (decide (x = b)) as [->|Hne];
    try (left; split; [reflexivity | discriminate]);
    try (right; tauto); tauto.
Qed.

Lemma frame_but_list_move b w c : frame_but (Some b) c (list_move b w c).
Proof.
  apply frame_but_of; [destruct w; reflexivity | destruct w; reflexivity |].
  intros x Hx Hne. apply on_free_lists_list_move in Hx as [[-> _]|[H _]];
    [congruence | assumption].
Qed.

Lemma frame_list_move_cache b c : frame c (list_move b L_cache c).
Proof.
  apply frame_but_of; [reflexivity | reflexivity |].
  intros x Hx _. apply on_free_lists_list_move in Hx as [[_ H]|[H _]];
    [congruence | assumption].
Qed.

Lemma frame_list_move_unhashed b w c :
  unhashed c b -> frame c (list_move b w c).
Proof.
  intros Hun. split; [destruct w; reflexivity|].
  split; [intros x; left; destruct w; reflexivity|].
  intros x Hx _. apply on_free_lists_list_move in Hx as [[-> _]|[H _]].
  - right. destruct w; exact Hun.
  - left. assumption.
Qed.











(** *** Reaping is a frame *)





(** *** Removing a node from the hash *)





(** *** The shrinker keeps the invariant *)







(** *** Outcomes and what they guarantee *)


Lemma ensures_weaken {A} (o : outcome A) (Q Q' : A -> cache_set -> Prop) :
  ensures o Q -> (forall a c, Q a c -> Q' a c) -> ensures o Q'.
Proof. destruct o; simpl; auto. Qed.





(** *** Allocation keeps the invariant and hands out unhashed nodes *)

Lemma hash_of_is_Some c b : is_Some (hash_of c b) <-> is_Some (nodes c !! b).
Proof. unfold hash_of. rewrite fmap_is_Some. reflexivity. Qed.







(** *** Filling a node: insertion into the hash, and the lost race *)




(** *** Getting a node *)






End HashFacts.

(* --------------------------------------------------------------------- *)
(** ** btree_cache.c: bch_btree_node_get *)
(* --------------------------------------------------------------------- *)

Module NodeGetFacts.

Import NodeCache IntsFacts.

(** A read or intent lock taken and dropped leaves the lock as it was. *)
Lemma six_unlock_trylock t l l' :
  t <> SIX_LOCK_write -> six_trylock_type t l = Some l' ->
  six_unlock_type t l' = l.
Proof.
  intros Ht. destruct t; [| |contradiction]; simpl;
    unfold six_trylock_read, six_trylock_intent;
    destruct l as [r i w s]; simpl.
  - destruct w; [discriminate|]. intros [= <-]. reflexivity.
  - destruct i; [discriminate|]. intros [= <-]. reflexivity.
Qed.

(** [btree_node_lock] returning true has taken the lock, in the state in
    which it became free. *)
Lemma btree_node_lock_taken wait b t c c1 :
  btree_node_lock wait b t c = Ret true c1 ->
  exists n l', nodes (lock_wait_state wait b t c) !! b = Some n
               /\ six_trylock_type t (lock n) = Some l'
               /\ c1 = upd_node b (fun n => with_lock n l')
                         (lock_wait_state wait b t c).
Proof.
  unfold btree_node_lock, lock_wait_state.
  destruct (nodes c !! b) as [n|] eqn:Hn; [|discriminate].
  destruct (six_trylock_type t (lock n)) as [l|] eqn:Hl.
  - intros [= <-]. rewrite Hn. eauto.
  - destruct wait as [f|]; [|discriminate].
    destruct (nodes (f c) !! b) as [n1|] eqn:Hn1; [|discriminate].
    destruct (six_trylock_type t (lock n1)) as [l|] eqn:Hl1; [|discriminate].
    intros [= <-]. eauto.
Qed.

Lemma lock_of_upd_node b f c :
  lock_of (upd_node b f c) b = (fun n => lock (f n)) <$> nodes c !! b.
Proof.
  unfold lock_of, upd_node. simpl. rewrite lookup_alter_eq.
  destruct (nodes c !! b); reflexivity.
Qed.

(** C3.  [bch_btree_node_get] finds the node in the cache and locks it
    (in read or intent mode).  If the node then no longer answers to the
    key's pointer word or to the level sought, and the parent cannot be
    relocked, the call returns -EINTR; if the node answers but carries the
    read_error flag, the call returns -EIO.  In both cases the node's
    lock is dropped again: it is left as it was when the call took it. *)
Theorem bch_btree_node_get_errors (D : Z) (e : get_env) (rest : list get_env)
    (it : btree_iter) (k : bkey_i) (lv : Z) (t : six_lock_type)
    (c : cache_set) (b : nat) (c1 : cache_set) :
  lv < D ->
  t <> SIX_LOCK_write ->
  mca_find c k = Some b ->
  let it1 := fst (drop_parent_read_lock it lv c) in
  let c0 := snd (drop_parent_read_lock it lv c) in
  btree_node_lock (ge_lock_wait e) b t c0 = Ret true c1 ->
  let before := lock_of (lock_wait_state (ge_lock_wait e) b t c0) b in
  (node_mismatch b k lv c1 = true ->
   btree_node_relock (ge_relock e) it1 (lv + 1)
     (upd_lock b (six_unlock_type t) c1) = None ->
   exists c2,
     bch_btree_node_get D (e :: rest) it k lv t c
     = Ret (ERR_PTR (- EINTR), it1) c2
     /\ lock_of c2 b = before)
  /\ (node_mismatch b k lv c1 = false ->
      ge_race_fault e = false ->
      node_read_error b c1 = true ->
      exists c2,
        bch_btree_node_get D (e :: rest) it k lv t c
        = Ret (ERR_PTR (- EIO), it1) c2
        /\ lock_of c2 b = before).
Proof.
  intros Hlv Ht Hfind it1 c0 Hlock before.
  destruct (btree_node_lock_taken _ _ _ _ _ Hlock) as (n & l' & Hn & Hl & Hc1).
  assert (Hbefore : before = Some (lock n))
    by (unfold before, lock_of; rewrite Hn; reflexivity).
  assert (Hstart : forall o : btree_iter -> bool -> M (ptr * btree_iter),
            (bind (run (drop_parent_read_lock it lv))
               (fun it1' => bind (btree_node_lock (ge_lock_wait e) b t) (o it1'))) c
            = o it1 true c1).
  { intros o. unfold bind at 1. unfold run.
    unfold it1, c0 in *. destruct (drop_parent_read_lock it lv c) as [i0 c00].
    simpl in *. unfold bind at 1. rewrite Hlock. reflexivity. }
  assert (Hget : forall r,
            node_get_loop (e :: rest) it k lv t c = r ->
            bch_btree_node_get D (e :: rest) it k lv t c = r).
  { intros r <-. unfold bch_btree_node_get, bind, BUG_ON.
    destruct (Z.geb_spec lv D); [lia | reflexivity]. }
  split.
  - intros Hbad Hrelock. eexists. split.
    + apply Hget. simpl. rewrite Hfind, Hstart. simpl.
      unfold bind at 1. unfold read. rewrite Hbad. simpl.
      unfold bind, step. rewrite Hrelock. reflexivity.
    + rewrite Hbefore, Hc1. unfold upd_lock.
      rewrite lock_of_upd_node. unfold upd_node. simpl.
      rewrite lookup_alter_eq, Hn. simpl.
      rewrite (six_unlock_trylock t _ _ Ht Hl). reflexivity.
  - intros Hok Hfault Herr. eexists. split.
    + apply Hget. simpl. rewrite Hfind, Hstart. simpl.
      unfold bind at 1. unfold read. rewrite Hok, Hfault. simpl.
      unfold node_get_finish, bind, step, read.
      assert (Herr' : node_read_error b
                (upd_node b (fun n0 => if accessed n0
                                       then set_btree_node_accessed n0 else n0) c1)
              = true).
      { unfold node_read_error in *. unfold upd_node. simpl.
        rewrite lookup_alter_eq. destruct (nodes c1 !! b) as [n1|]; [|discriminate].
        simpl. destruct (accessed n1); exact Herr. }
      rewrite Herr'. reflexivity.
    + rewrite Hbefore, Hc1. unfold upd_lock.
      rewrite lock_of_upd_node. unfold upd_node. simpl.
      rewrite !lookup_alter_eq, Hn. simpl.
      destruct (accessed n); simpl;
        rewrite (six_unlock_trylock t _ _ Ht Hl); reflexivity.
Qed.

End NodeGetFacts.

(* --------------------------------------------------------------------- *)
(** ** The node cache at work *)
(* --------------------------------------------------------------------- *)

Module NodeCacheExamples.

Import NodeCache.


(** The scan frees two nodes, the most it may, and reports 8 pages; the
    two nodes are gone from the hash, the others are still found. *)
Example example_scan :
  returned (bch_mca_scan example_sc example_full) = Some 8
  /\ returned (mca_scan_freed example_sc example_full) = Some (Some 2)
  /\ btree_cache_used (final_state (bch_mca_scan example_sc example_full)) = 16
  /\ mca_find (final_state (bch_mca_scan example_sc example_full))
       (example_key 18) = None
  /\ mca_find (final_state (bch_mca_scan example_sc example_full))
       (example_key 16) = Some 15%nat
  /\ bch_mca_count example_full = 8.
Proof. vm_compute. repeat split; reflexivity. Qed.



(** The node is found after the fill, and no longer after
    [mca_hash_remove]. *)
Example example_fill_then_remove :
  mca_find example_one (example_key 1) = Some 0%nat
  /\ (mca_find (final_state (mca_hash_remove 0%nat example_one)) (example_key 1)
      = None)
  /\ hash_of (final_state (mca_hash_remove 0%nat example_one)) 0%nat = Some 0.
Proof. vm_compute. repeat split; reflexivity. Qed.

(** When the table refuses the node (a lost race) the node comes back
    zeroed at the head of the freeable list. *)
Example example_lost_race :
  let e := {| fe_alloc := fe_alloc example_fill_env; fe_spin := 1;
              fe_resched := fun c => c; fe_insert_fails := true;
              fe_read_fails := false |} in
  let o := bch_btree_node_fill e example_iter (example_key 9) 0 SIX_LOCK_read
             empty_cache_set in
  returned o = Some (NULL, example_iter)
  /\ btree_cache_freeable (final_state o) = [0%nat]
  /\ hash_of (final_state o) 0%nat = Some 0
  /\ mca_find (final_state o) (example_key 9) = None.
Proof. vm_compute. repeat split; reflexivity. Qed.

Lemma example_one_find : mca_find example_one (example_key 1) = Some 0%nat.
Proof. vm_compute. reflexivity. Qed.

Lemma example_one_lock :
  btree_node_lock (ge_lock_wait example_get_env) 0%nat SIX_LOCK_read
    (snd (drop_parent_read_lock example_iter 1 example_one))
  = Ret true example_locked.
Proof. vm_compute. reflexivity. Qed.

Lemma example_one_iter :
  fst (drop_parent_read_lock example_iter 1 example_one) = example_iter.
Proof. vm_compute. reflexivity. Qed.

Lemma example_one_before :
  lock_of
    (lock_wait_state (ge_lock_wait example_get_env) 0%nat SIX_LOCK_read
       (snd (drop_parent_read_lock example_iter 1 example_one))) 0%nat
  = Some six_lock_init.
Proof. vm_compute. reflexivity. Qed.

(** Sought at level 1, the leaf of key 1 does not answer; the iterator
    holds no lock on a parent and cannot relock one: -EINTR, and the node
    is unlocked. *)
Lemma bch_btree_node_get_errors_witness :
  exists c2,
    bch_btree_node_get 4 [example_get_env] example_iter (example_key 1) 1
      SIX_LOCK_read example_one
    = Ret (ERR_PTR (- EINTR), example_iter) c2
    /\ lock_of c2 0%nat = Some six_lock_init.
Proof.
  destruct (proj1 (NodeGetFacts.bch_btree_node_get_errors 4 example_get_env []
                     example_iter (example_key 1) 1 SIX_LOCK_read example_one
                     0%nat example_locked
                     ltac:(lia) ltac:(discriminate) example_one_find
                     example_one_lock))
    as (c2 & Hret & Hlock).
  - vm_compute. reflexivity.
  - vm_compute. reflexivity.
  - exists c2. rewrite example_one_iter in Hret.
    rewrite example_one_before in Hlock. split; assumption.
Defined.

(** Sought at its own level, the node that failed to read gives -EIO. *)
Example example_get_eio :
  returned (bch_btree_node_get 4 [example_get_env] example_iter (example_key 1)
              0 SIX_LOCK_read example_one_bad)
  = Some (ERR_PTR (- EIO), example_iter)
  /\ lock_of
       (final_state (bch_btree_node_get 4 [example_get_env] example_iter
                       (example_key 1) 0 SIX_LOCK_read example_one_bad)) 0%nat
     = Some six_lock_init.
Proof. vm_compute. repeat split; reflexivity. Qed.

(** A node that is cached and well is returned read locked. *)
Example example_get_ok :
  returned (bch_btree_node_get 4 [example_get_env] example_iter (example_key 1)
              0 SIX_LOCK_read example_one)
  = Some (NODE 0%nat, example_iter).
Proof. vm_compute. reflexivity. Qed.

End NodeCacheExamples.
